(** * sickFits-backend: the resolvers of the commerce API

    A shallow embedding of [src/resolvers/Mutation.js] and of the query
    resolvers ([users], [order], ...) together with the part of the Prisma
    store they talk to.  Resolvers are functions in a state-and-exception
    monad over the request's world (the store and the response cookies);
    whatever a resolver wrote before it throws stays written, as in the
    JavaScript. *)

From Stdlib Require Import ZArith NArith List String Ascii Bool Lia.
Import ListNotations.

Local Open Scope string_scope.
Local Open Scope list_scope.

(** ** Data model *)

(** Prisma ids are opaque unique strings handed out by the store; the model
    uses numbers.  An id is never the empty string, so the JavaScript test
    [!userId] is the test for an absent id.  Prices, quantities, amounts and
    clock readings are integers and the model has them in [Z]; where the
    resolvers compute with them the result is rounded as a JavaScript number
    is (see [round_to_double]). *)
Definition ID := N.
Bind Scope N_scope with ID.

Record User := mkUser {
  user_id : ID;
  user_name : string;
  user_email : string;
  user_password : string;
  user_permissions : list string;
  user_resetToken : option string;
  user_resetTokenExpiry : option Z
}.

Record Item := mkItem {
  item_id : ID;
  item_title : string;
  item_description : string;
  item_image : string;
  item_largeImage : string;
  item_price : Z;
  item_user : option ID
}.

Record CartItem := mkCartItem {
  cart_id : ID;
  cart_quantity : Z;
  cart_item : ID;
  cart_user : ID
}.

(** An order item is a copy of the item's fields without its id
    ([delete orderItem.id]), with the purchased quantity and the buyer. *)
Record OrderItem := mkOrderItem {
  oi_title : string;
  oi_description : string;
  oi_image : string;
  oi_largeImage : string;
  oi_price : Z;
  oi_quantity : Z;
  oi_user : ID
}.

Record Order := mkOrder {
  order_id : ID;
  order_items : list OrderItem;
  order_total : Z;
  order_user : ID;
  order_charge : string
}.

Record DB := mkDB {
  db_users : list User;
  db_items : list Item;
  db_cartItems : list CartItem;
  db_orders : list Order
}.

Record Cookie := mkCookie {
  cookie_name : string;
  cookie_value : string;
  cookie_httpOnly : bool;
  cookie_maxAge : Z
}.

(** The world a request runs in: the store and the client's cookies as the
    response leaves them. *)
Record World := mkWorld {
  db : DB;
  cookies : list Cookie
}.

(** [ctx.request]: the session's user id and the user record the middleware
    cached for it; both are absent on a request without a session. *)
Record Ctx := mkCtx {
  request_userId : option ID;
  request_user : option User
}.

(** What a call reads from its environment: the clock, the salt bcrypt draws
    and the bytes [randomBytes(20)] returns, hex-encoded. *)
Record Env := mkEnv {
  Date_now : Z;
  bcrypt_salt : string;
  randomBytes_hex : string
}.

Record Charge := mkCharge {
  charge_id : string;
  charge_amount : Z
}.

Record Mail := mkMail {
  mail_from : string;
  mail_to : string;
  mail_subject : string;
  mail_html : string
}.

(** ** The monad of a resolver *)

Inductive result (A : Type) : Type :=
| Ok (a : A)
| Err (msg : string).
Arguments Ok {A} a.
Arguments Err {A} msg.

Definition M (A : Type) : Type := World -> result A * World.

Definition ret {A} (a : A) : M A := fun w => (Ok a, w).

Definition throw {A} (msg : string) : M A := fun w => (Err msg, w).

Definition bind {A B} (m : M A) (k : A -> M B) : M B :=
  fun w =>
    match m w with
    | (Ok a, w') => k a w'
    | (Err e, w') => (Err e, w')
    end.

Definition lift {A} (r : result A) : M A := fun w => (r, w).

Declare Scope resolver_scope.
Delimit Scope resolver_scope with resolver.
Notation "x <- m ;; k" := (bind m (fun x => k))
  (at level 100, m at next level, right associativity) : resolver_scope.
Notation "m ;;; k" := (bind m (fun _ => k))
  (at level 100, right associativity) : resolver_scope.
Local Open Scope resolver_scope.

Definition is_ok {A} (r : result A) : bool :=
  match r with Ok _ => true | Err _ => false end.

(** A value read from [null] or [undefined] throws. *)
Definition TypeError : string := "TypeError".

Definition deref {A} (o : option A) : M A :=
  match o with
  | Some a => ret a
  | None => throw TypeError
  end.

(** ** The store

    The store is Prisma behind [ctx.db].  A query answers with whole rows:
    the selection a resolver forwards ([info], or a literal selection) is
    taken to cover the fields the resolver goes on to read. *)

Definition get_db : M DB := fun w => (Ok (db w), w).

Definition put_db (d : DB) : M unit :=
  fun w => (Ok tt, mkWorld d (cookies w)).

Definition fresh (ids : list ID) : ID := N.succ (fold_right N.max 0%N ids).

Definition set_users (d : DB) (us : list User) : DB :=
  mkDB us (db_items d) (db_cartItems d) (db_orders d).
Definition set_items (d : DB) (l : list Item) : DB :=
  mkDB (db_users d) l (db_cartItems d) (db_orders d).
Definition set_cartItems (d : DB) (cs : list CartItem) : DB :=
  mkDB (db_users d) (db_items d) cs (db_orders d).
Definition set_orders (d : DB) (os : list Order) : DB :=
  mkDB (db_users d) (db_items d) (db_cartItems d) os.

(** [db.query.users({ where })]: the rows the filter keeps, in store order. *)
Definition db_query_users (where_ : User -> bool) : M (list User) :=
  d <- get_db ;; ret (filter where_ (db_users d)).

(** [db.query.user({ where })] with a unique selector: the row or [null]. *)
Definition db_query_user (where_ : User -> bool) : M (option User) :=
  d <- get_db ;; ret (find where_ (db_users d)).

Definition where_user_id (i : ID) (u : User) : bool := N.eqb (user_id u) i.
Definition where_user_email (e : string) (u : User) : bool :=
  String.eqb (user_email u) e.

(** [db.mutation.updateUser({ where, data })]: [where] selects by a field
    the data model declares unique, so the update is applied to what the
    selector matches; it fails when nothing matches, and returns the updated
    row. *)
Definition db_mutation_updateUser (where_ : User -> bool) (data : User -> User)
  : M User :=
  d <- get_db ;;
  match find where_ (db_users d) with
  | None => throw "No Node for the model User with that value"
  | Some u =>
      put_db (set_users d
                (map (fun v => if where_ v then data v else v) (db_users d))) ;;;
      ret (data u)
  end.

(** [db.mutation.createUser({ data })]: [email] is unique in the data model,
    so a second user with a registered email is refused. *)
Definition db_mutation_createUser (name email password : string)
    (permissions : list string) : M User :=
  d <- get_db ;;
  if existsb (where_user_email email) (db_users d)
  then throw "A unique constraint would be violated on User. Details: Field name = email"
  else
    let u := mkUser (fresh (map user_id (db_users d))) name email password
                    permissions None None in
    put_db (set_users d (db_users d ++ [u])) ;;;
    ret u.

Definition where_item_id (i : ID) (it : Item) : bool := N.eqb (item_id it) i.

Definition db_query_item (i : ID) : M (option Item) :=
  d <- get_db ;; ret (find (where_item_id i) (db_items d)).

Definition db_mutation_createItem (title description image largeImage : string)
    (price : Z) (owner : option ID) : M Item :=
  d <- get_db ;;
  match owner with
  | Some o =>
      if existsb (where_user_id o) (db_users d) then
        let it := mkItem (fresh (map item_id (db_items d))) title description
                         image largeImage price owner in
        put_db (set_items d (db_items d ++ [it])) ;;; ret it
      else throw "No Node for the model User with that value"
  | None =>
      let it := mkItem (fresh (map item_id (db_items d))) title description
                       image largeImage price None in
      put_db (set_items d (db_items d ++ [it])) ;;; ret it
  end.

Definition db_mutation_updateItem (i : ID) (data : Item -> Item) : M Item :=
  d <- get_db ;;
  match find (where_item_id i) (db_items d) with
  | None => throw "No Node for the model Item with that value"
  | Some it =>
      put_db (set_items d
                (map (fun v => if where_item_id i v then data v else v)
                     (db_items d))) ;;;
      ret (data it)
  end.

Definition db_mutation_deleteItem (i : ID) : M Item :=
  d <- get_db ;;
  match find (where_item_id i) (db_items d) with
  | None => throw "No Node for the model Item with that value"
  | Some it =>
      put_db (set_items d
                (filter (fun v => negb (where_item_id i v)) (db_items d))) ;;;
      ret it
  end.

Definition where_cart_id (i : ID) (c : CartItem) : bool := N.eqb (cart_id c) i.

(** The filter [{ user: { id: userId }, item: { id: itemId } }]. *)
Definition where_cart_user_item (u i : ID) (c : CartItem) : bool :=
  N.eqb (cart_user c) u && N.eqb (cart_item c) i.

Definition db_query_cartItems (where_ : CartItem -> bool) : M (list CartItem) :=
  d <- get_db ;; ret (filter where_ (db_cartItems d)).

Definition db_query_cartItem (i : ID) : M (option CartItem) :=
  d <- get_db ;; ret (find (where_cart_id i) (db_cartItems d)).

Definition db_mutation_updateCartItem (i : ID) (data : CartItem -> CartItem)
  : M CartItem :=
  d <- get_db ;;
  match find (where_cart_id i) (db_cartItems d) with
  | None => throw "No Node for the model CartItem with that value"
  | Some c =>
      put_db (set_cartItems d
                (map (fun v => if where_cart_id i v then data v else v)
                     (db_cartItems d))) ;;;
      ret (data c)
  end.

(** Modelled from the spec: the data model file that declares [CartItem] is
    not among the sources; the spec says a new CartItem is created "with
    quantity 1", which is the default of the [quantity] field that
    [createCartItem] takes when the resolver passes none. *)
Definition CartItem_quantity_default : Z := 1.

(** [db.mutation.createCartItem({ data: { user: connect, item: connect } })]:
    connecting to a row that does not exist is refused. *)
Definition db_mutation_createCartItem (u i : ID) : M CartItem :=
  d <- get_db ;;
  if existsb (where_user_id u) (db_users d) && existsb (where_item_id i) (db_items d)
  then
    let c := mkCartItem (fresh (map cart_id (db_cartItems d)))
                        CartItem_quantity_default i u in
    put_db (set_cartItems d (db_cartItems d ++ [c])) ;;;
    ret c
  else throw "No Node for the model with that value".

Definition db_mutation_deleteCartItem (i : ID) : M CartItem :=
  d <- get_db ;;
  match find (where_cart_id i) (db_cartItems d) with
  | None => throw "No Node for the model CartItem with that value"
  | Some c =>
      put_db (set_cartItems d
                (filter (fun v => negb (where_cart_id i v)) (db_cartItems d))) ;;;
      ret c
  end.

(** [db.mutation.deleteManyCartItems({ where: { id_in } })]. *)
Definition db_mutation_deleteManyCartItems (id_in : list ID) : M unit :=
  d <- get_db ;;
  put_db (set_cartItems d
            (filter (fun c => negb (existsb (N.eqb (cart_id c)) id_in))
                    (db_cartItems d))).

Definition db_mutation_createOrder (total : Z) (charge : string)
    (create : list OrderItem) (u : ID) : M Order :=
  d <- get_db ;;
  if existsb (where_user_id u) (db_users d) then
    let o := mkOrder (fresh (map order_id (db_orders d))) create total u charge in
    put_db (set_orders d (db_orders d ++ [o])) ;;;
    ret o
  else throw "No Node for the model User with that value".

Definition where_order_id (i : ID) (o : Order) : bool := N.eqb (order_id o) i.

Definition db_query_order (i : ID) : M (option Order) :=
  d <- get_db ;; ret (find (where_order_id i) (db_orders d)).

Definition db_query_orders (where_ : Order -> bool) : M (list Order) :=
  d <- get_db ;; ret (filter where_ (db_orders d)).

(** The cart of a user as [createOrder] reads it: the user's cart items in
    store order, each with its item joined in ([null] when the item is
    gone). *)
Record CartLine := mkCartLine {
  line_id : ID;
  line_quantity : Z;
  line_item : option Item
}.

Definition cart_of (d : DB) (u : ID) : list CartLine :=
  map (fun c => mkCartLine (cart_id c) (cart_quantity c)
                           (find (where_item_id (cart_item c)) (db_items d)))
      (filter (fun c => N.eqb (cart_user c) u) (db_cartItems d)).

(** [db.query.user({ where: { id } }, `{ id name email cart { ... } }`)]. *)
Definition db_query_user_cart (u : ID) : M (option (User * list CartLine)) :=
  d <- get_db ;;
  ret (match find (where_user_id u) (db_users d) with
       | Some usr => Some (usr, cart_of d u)
       | None => None
       end).

(** ** The response *)

Definition response_cookie (name value : string) (httpOnly : bool) (maxAge : Z)
  : M unit :=
  fun w =>
    (Ok tt,
     mkWorld (db w)
       (mkCookie name value httpOnly maxAge
        :: filter (fun c => negb (String.eqb (cookie_name c) name)) (cookies w))).

Definition response_clearCookie (name : string) : M unit :=
  fun w =>
    (Ok tt,
     mkWorld (db w)
       (filter (fun c => negb (String.eqb (cookie_name c) name)) (cookies w))).

(** [1000 * 60 * 60 * 24 * 365], the cookie's one year in milliseconds. *)
Definition one_year : Z := 1000 * 60 * 60 * 24 * 365.

(** ** Strings *)

(** A string is the sequence of the bytes of its UTF-8 encoding.  On a
    string of ASCII characters only, [String.prototype.toLowerCase] turns
    the letters [A] to [Z] into [a] to [z] and keeps every other
    character. *)
Definition toLowerCase_ascii (c : ascii) : ascii :=
  let n := nat_of_ascii c in
  if (65 <=? n)%nat && (n <=? 90)%nat then ascii_of_nat (n + 32) else c.

Fixpoint toLowerCase_bytes (s : string) : string :=
  match s with
  | EmptyString => EmptyString
  | String c rest => String (toLowerCase_ascii c) (toLowerCase_bytes rest)
  end.

(** Every byte is below 128: the string has ASCII characters only. *)
Fixpoint is_ascii (s : string) : bool :=
  match s with
  | EmptyString => true
  | String c rest => (nat_of_ascii c <? 128)%nat && is_ascii rest
  end.

(** ** Numbers *)

(** [Number.MAX_SAFE_INTEGER], [2^53 - 1]. *)
Definition MAX_SAFE_INTEGER : Z := 9007199254740991.

(** A JavaScript number is an IEEE-754 double.  The sum or product of two
    integers that are doubles is the double nearest to the exact result,
    ties going to the even significand of 53 bits: an integer again, equal
    to the exact result up to [2^53].  (A magnitude of [2^1024] or more,
    where the double is an infinity, is out of reach of the 32-bit prices
    and quantities of a cart.) *)
Definition round_to_double (z : Z) : Z :=
  let a := Z.abs z in
  if (a <=? MAX_SAFE_INTEGER)%Z then z
  else
    let e := (Z.log2 a - 52)%Z in
    let q := Z.shiftr a e in
    let r := (a - Z.shiftl q e)%Z in
    let half := Z.shiftl 1 (e - 1) in
    let q' := if (r <? half)%Z then q
              else if (half <? r)%Z then (q + 1)%Z
              else if Z.even q then q else (q + 1)%Z in
    (Z.sgn z * Z.shiftl q' e)%Z.

Definition number_add (a b : Z) : Z := round_to_double (a + b).
Definition number_mul (a b : Z) : Z := round_to_double (a * b).

(** The newline and the double quote of the reset mail's markup. *)
Definition nl : string := String (ascii_of_nat 10) EmptyString.
Definition dquote : string := String (ascii_of_nat 34) EmptyString.

(** [array.includes(x)] on strings. *)
Definition includes (l : list string) (x : string) : bool :=
  existsb (String.eqb x) l.

(** ** PermissionGuard *)

(** Modelled from the spec: [hasPermission] is imported from [../utils],
    which is not among the sources.  The spec gives its contract as
    [authorize(user, requiredAny)]: it fails with an authorization error
    unless the user's permission set intersects [requiredAny], and has no
    side effect. *)
Definition hasPermission (user : User) (permissionsNeeded : list string)
  : result unit :=
  if existsb (includes permissionsNeeded) (user_permissions user)
  then Ok tt
  else Err "You do not have sufficient permissions".

(** ** Arguments of the resolvers *)

Record CreateItemArgs := mkCreateItemArgs {
  ci_title : string;
  ci_description : string;
  ci_price : Z;
  ci_image : string;
  ci_largeImage : string
}.

Record UpdateItemArgs := mkUpdateItemArgs {
  ui_id : ID;
  ui_title : option string;
  ui_description : option string;
  ui_price : option Z
}.

Record SignupArgs := mkSignupArgs {
  su_email : string;
  su_name : string;
  su_password : string
}.

Record ResetPasswordArgs := mkResetPasswordArgs {
  rp_resetToken : string;
  rp_password : string;
  rp_confirmPassword : string
}.

Record UpdatePermissionsArgs := mkUpdatePermissionsArgs {
  up_permissions : list string;
  up_userId : ID
}.

(** [updates]: the copy of [args] without its [id], applied to a row. *)
Definition apply_updates (args : UpdateItemArgs) (it : Item) : Item :=
  mkItem (item_id it)
         (match ui_title args with Some t => t | None => item_title it end)
         (match ui_description args with
          | Some t => t | None => item_description it end)
         (item_image it) (item_largeImage it)
         (match ui_price args with Some p => p | None => item_price it end)
         (item_user it).

Definition set_password_clear_token (password : string) (u : User) : User :=
  mkUser (user_id u) (user_name u) (user_email u) password
         (user_permissions u) None None.

Definition set_resetToken (t : string) (e : Z) (u : User) : User :=
  mkUser (user_id u) (user_name u) (user_email u) (user_password u)
         (user_permissions u) (Some t) (Some e).

Definition set_permissions (ps : list string) (u : User) : User :=
  mkUser (user_id u) (user_name u) (user_email u) (user_password u)
         ps (user_resetToken u) (user_resetTokenExpiry u).

Definition set_quantity (q : Z) (c : CartItem) : CartItem :=
  mkCartItem (cart_id c) q (cart_item c) (cart_user c).

(** The filter [{ resetToken: t, resetTokenExpiry_gte: e }]; a [null] field
    matches neither part. *)
Definition where_resetToken (t : string) (e : Z) (u : User) : bool :=
  match user_resetToken u, user_resetTokenExpiry u with
  | Some t', Some e' => String.eqb t' t && (e <=? e')%Z
  | _, _ => false
  end.

(** [user.cart.reduce((tally, cartItem) =>
      tally + cartItem.item.price * cartItem.quantity, 0)],
    in the arithmetic of JavaScript numbers; reading the price of a [null]
    item throws. *)
Fixpoint cart_reduce (tally : Z) (cart : list CartLine) : option Z :=
  match cart with
  | [] => Some tally
  | l :: rest =>
      match line_item l with
      | Some it =>
          cart_reduce
            (number_add tally (number_mul (item_price it) (line_quantity l)))
            rest
      | None => None
      end
  end.

(** [{ ...cartItem.item, quantity, user: connect }] without the [id]. *)
Definition orderItem_of (userId : ID) (l : CartLine) : option OrderItem :=
  match line_item l with
  | Some it =>
      Some (mkOrderItem (item_title it) (item_description it) (item_image it)
                        (item_largeImage it) (item_price it)
                        (line_quantity l) userId)
  | None => None
  end.

Fixpoint orderItems_of (userId : ID) (cart : list CartLine)
  : option (list OrderItem) :=
  match cart with
  | [] => Some []
  | l :: rest =>
      match orderItem_of userId l, orderItems_of userId rest with
      | Some o, Some os => Some (o :: os)
      | _, _ => None
      end
  end.

(** ** The resolvers *)

Section Resolvers.

(** The libraries and services the resolvers call. *)
Variable bcrypt_hash : string -> nat -> string -> string.
Variable bcrypt_compare : string -> string -> bool.
Variable jwt_sign : ID -> string -> string.
Variable APP_SECRET : string.
Variable FRONTEND_URL : string.
Variable stripe_charges_create : Z -> string -> string -> result Charge.
Variable transport_sendMail : Mail -> result unit.
Variable makeANiceEmail : string -> string.

(** [String.prototype.toLowerCase] on a string with a character outside
    ASCII, where it follows the Unicode case mappings. *)
Variable toLowerCase_unicode : string -> string.

Definition toLowerCase (s : string) : string :=
  if is_ascii s then toLowerCase_bytes s else toLowerCase_unicode s.

(** *** Mutations *)

Definition createItem (args : CreateItemArgs) (ctx : Ctx) : M Item :=
  match request_userId ctx with
  | None => throw "You must be logged in to do that!"
  | Some userId =>
      db_mutation_createItem (ci_title args) (ci_description args)
        (ci_image args) (ci_largeImage args) (ci_price args) (Some userId)
  end.

(** [updateItem] hands the update to the store at once; it reads nothing of
    [ctx.request]. *)
Definition updateItem (args : UpdateItemArgs) (ctx : Ctx) : M Item :=
  db_mutation_updateItem (ui_id args) (apply_updates args).

Definition deleteItem (id : ID) (ctx : Ctx) : M Item :=
  item <- db_query_item id ;;
  item <- deref item ;;
  owner <- deref (item_user item) ;;
  let ownsItem :=
    match request_userId ctx with
    | Some userId => N.eqb userId owner
    | None => false
    end in
  user <- deref (request_user ctx) ;;
  let hasPermissions :=
    existsb (includes ["ADMIN"; "ITEMDELETE"]) (user_permissions user) in
  if negb ownsItem && negb hasPermissions
  then throw "You don't have permission to do that!"
  else db_mutation_deleteItem id.

Definition signup (env : Env) (args : SignupArgs) : M User :=
  let email := toLowerCase (su_email args) in
  let password := bcrypt_hash (su_password args) 10 (bcrypt_salt env) in
  user <- db_mutation_createUser (su_name args) email password ["USER"] ;;
  let token := jwt_sign (user_id user) APP_SECRET in
  response_cookie "token" token true one_year ;;;
  ret user.

Definition signin (email password : string) : M User :=
  user <- db_query_user (where_user_email email) ;;
  match user with
  | None => throw ("No such user found for email " ++ email)
  | Some user =>
      if negb (bcrypt_compare password (user_password user))
      then throw "Invalid password"
      else
        let token := jwt_sign (user_id user) APP_SECRET in
        response_cookie "token" token true one_year ;;;
        ret user
  end.

Definition signout : M string :=
  response_clearCookie "token" ;;;
  ret "Goodbye!".

Definition requestReset (env : Env) (email : string) : M string :=
  user <- db_query_user (where_user_email email) ;;
  match user with
  | None => throw ("No such user found for email " ++ email)
  | Some user =>
      let resetToken := randomBytes_hex env in
      let resetTokenExpiry := (Date_now env + 3600000)%Z in
      db_mutation_updateUser (where_user_email email)
        (set_resetToken resetToken resetTokenExpiry) ;;;
      lift (transport_sendMail
              (mkMail "roshanakjamali@gmail.com" (user_email user)
                 "Password Reset Token"
                 (makeANiceEmail
                    ("Your Password Reset Token Is Here! " ++ nl ++ nl
                     ++ " <a href=" ++ dquote
                     ++ FRONTEND_URL ++ "/reset?resetToken=" ++ resetToken
                     ++ dquote ++ ">Click Here To Reset!</a>")))) ;;;
      ret "Thanks!"
  end.

Definition resetPassword (env : Env) (args : ResetPasswordArgs) : M User :=
  if negb (String.eqb (rp_password args) (rp_confirmPassword args))
  then throw "Your Password don't Match"
  else
    found <- db_query_users
               (where_resetToken (rp_resetToken args)
                                 (Date_now env - 3600000)%Z) ;;
    match found with
    | [] => throw "This token is wither invalid or expired!"
    | user :: _ =>
        let password := bcrypt_hash (rp_password args) 10 (bcrypt_salt env) in
        updatedUser <- db_mutation_updateUser
                         (where_user_email (user_email user))
                         (set_password_clear_token password) ;;
        let token := jwt_sign (user_id updatedUser) APP_SECRET in
        response_cookie "token" token true one_year ;;;
        ret updatedUser
    end.

Definition updatePermissions (args : UpdatePermissionsArgs) (ctx : Ctx)
  : M User :=
  match request_userId ctx with
  | None => throw "You must be logged in!"
  | Some userId =>
      user <- db_query_user (where_user_id userId) ;;
      user <- deref user ;;
      lift (hasPermission user ["ADMIN"; "PERMISSIONUPDATE"]) ;;;
      db_mutation_updateUser (where_user_id (up_userId args))
        (set_permissions (up_permissions args))
  end.

Definition addToCart (id : ID) (ctx : Ctx) : M CartItem :=
  match request_userId ctx with
  | None => throw "You must be logged in!"
  | Some userId =>
      found <- db_query_cartItems (where_cart_user_item userId id) ;;
      match found with
      | existingCartItem :: _ =>
          db_mutation_updateCartItem (cart_id existingCartItem)
            (set_quantity (cart_quantity existingCartItem + 1)%Z)
      | [] => db_mutation_createCartItem userId id
      end
  end.

Definition removeFromCart (id : ID) (ctx : Ctx) : M CartItem :=
  cartItem <- db_query_cartItem id ;;
  match cartItem with
  | None => throw "No CartItem found!"
  | Some cartItem =>
      if match request_userId ctx with
         | Some userId => negb (N.eqb (cart_user cartItem) userId)
         | None => true
         end
      then throw "This item is not Yours!"
      else db_mutation_deleteCartItem id
  end.

(** [createOrder]: the only argument the resolver reads is [args.token].
    A cart line whose item is [null] makes the [reduce] throw, so the later
    [map] over the same cart never meets one. *)
Definition createOrder (token : string) (ctx : Ctx) : M Order :=
  match request_userId ctx with
  | None => throw "You must be signed in!"
  | Some userId =>
      user <- db_query_user_cart userId ;;
      user <- deref user ;;
      let cart := snd user in
      amount <- deref (cart_reduce 0 cart) ;;
      charge <- lift (stripe_charges_create amount "USD" token) ;;
      orderItems <- deref (orderItems_of userId cart) ;;
      order <- db_mutation_createOrder (charge_amount charge)
                 (charge_id charge) orderItems userId ;;
      let cartItemsId := map line_id cart in
      db_mutation_deleteManyCartItems cartItemsId ;;;
      ret order
  end.

(** *** Queries *)

Definition me (ctx : Ctx) : M (option User) :=
  match request_userId ctx with
  | None => ret None
  | Some userId => db_query_user (where_user_id userId)
  end.

Definition users (ctx : Ctx) : M (list User) :=
  match request_userId ctx with
  | None => throw "You must be logged in!"
  | Some _ =>
      user <- deref (request_user ctx) ;;
      lift (hasPermission user ["ADMIN"; "PERISSIONUPDATE"]) ;;;
      db_query_users (fun _ => true)
  end.

Definition order (id : ID) (ctx : Ctx) : M Order :=
  match request_userId ctx with
  | None => throw "You must be logged in!"
  | Some userId =>
      order <- db_query_order id ;;
      order <- deref order ;;
      let ownsOrder := N.eqb (order_user order) userId in
      user <- deref (request_user ctx) ;;
      let hasPermissionToSeeOrder := includes (user_permissions user) "ADMIN" in
      if negb ownsOrder || negb hasPermissionToSeeOrder
      then throw "You cant see this! :)"
      else ret order
  end.

Definition orders (ctx : Ctx) : M (list Order) :=
  match request_userId ctx with
  | None => throw "You must be logged in!"
  | Some userId => db_query_orders (fun o => N.eqb (order_user o) userId)
  end.

(** ** Notions the properties are stated with *)




(** The user's reset token is the string [t]. *)
Definition holds_token (t : string) (u : User) : bool :=
  match user_resetToken u with
  | Some t' => String.eqb t' t
  | None => false
  end.

(** The snapshot of a cart line in an order. *)
Definition snapshot (userId : ID) (l : CartLine) (o : OrderItem) : Prop :=
  exists it,
    line_item l = Some it /\
    o = mkOrderItem (item_title it) (item_description it) (item_image it)
                    (item_largeImage it) (item_price it) (line_quantity l)
                    userId.


(** A hash that verifies against the plaintext it was made from. *)
Definition verifies (hash : string -> nat -> string -> string)
    (compare : string -> string -> bool) : Prop :=
  forall plain rounds salt, compare plain (hash plain rounds salt) = true.

(** The mail [requestReset] hands to the transport. *)
Definition reset_mail (to resetToken : string) : Mail :=
  mkMail "roshanakjamali@gmail.com" to "Password Reset Token"
    (makeANiceEmail
       ("Your Password Reset Token Is Here! " ++ nl ++ nl
        ++ " <a href=" ++ dquote
        ++ FRONTEND_URL ++ "/reset?resetToken=" ++ resetToken
        ++ dquote ++ ">Click Here To Reset!</a>")).

(** The session cookie [signup], [signin] and [resetPassword] set. *)
Definition session_cookie (u : User) : Cookie :=
  mkCookie "token" (jwt_sign (user_id u) APP_SECRET) true one_year.

(** The (user, item) pair a cart row stands for. *)
Definition cart_pair (c : CartItem) : ID * ID := (cart_user c, cart_item c).

(** The caller may delete an item of [owner]: it is theirs, or their cached
    permissions include [ADMIN] or [ITEMDELETE]. *)
Definition may_delete (ctx : Ctx) (user : User) (owner : ID) : Prop :=
  request_userId ctx = Some owner
  \/ In "ADMIN" (user_permissions user)
  \/ In "ITEMDELETE" (user_permissions user).

(** The update [requestReset] applies to the users. *)
Definition issue (email token : string) (expiry : Z) (v : User) : User :=
  if where_user_email email v then set_resetToken token expiry v else v.

(** ** Sample stores and services *)

Definition alice : User :=
  mkUser 1 "Alice" "alice@example.com" "$2a$10$alice" ["USER"]
         (Some "5f2c9e0b7a") (Some 1700000000000%Z).

Definition bob : User :=
  mkUser 2 "Bob" "bob@example.com" "$2a$10$bob" ["USER"; "PERMISSIONUPDATE"]
         None None.

Definition carol : User :=
  mkUser 3 "Carol" "carol@example.com" "$2a$10$carol" ["ADMIN"] None None.

Definition shoes : Item :=
  mkItem 1 "Shoes" "Running shoes" "s.jpg" "s-large.jpg" 500 (Some 1%N).

Definition hat : Item :=
  mkItem 2 "Hat" "A hat" "h.jpg" "h-large.jpg" 300 (Some 3%N).

Definition shop : DB :=
  mkDB [alice; bob; carol] [shoes; hat]
       [mkCartItem 1 2 1 2; mkCartItem 2 1 2 2; mkCartItem 3 4 2 1] [].

Definition shop_world : World := mkWorld shop [].

Definition anonymous : Ctx := mkCtx None None.
Definition as_alice : Ctx := mkCtx (Some 1%N) (Some alice).
Definition as_bob : Ctx := mkCtx (Some 2%N) (Some bob).
Definition as_carol : Ctx := mkCtx (Some 3%N) (Some carol).

(** One minute after Alice's reset token expired. *)
Definition a_minute_late : Env := mkEnv 1700000060000 "salt" "9d41aa03c2".

(** Well within the hour of Alice's reset token. *)
Definition in_time : Env := mkEnv 1699999000000 "salt" "9d41aa03c2".

(** A toy hash that verifies, a gateway that captures what it is asked to
    and a gateway that declines. *)
Definition toy_hash (plain : string) (rounds : nat) (salt : string) : string :=
  "$2a$" ++ plain.
Definition toy_compare (plain hash : string) : bool :=
  String.eqb hash ("$2a$" ++ plain).
Definition toy_sign (i : ID) (secret : string) : string := secret.
Definition toy_lower (s : string) : string := toLowerCase_bytes s.
Definition capturing_gateway (amount : Z) (currency token : string)
  : result Charge := Ok (mkCharge "ch_1" amount).
Definition declining_gateway (amount : Z) (currency token : string)
  : result Charge := Err "Your card was declined.".

(** Bob's checkout of two pairs of shoes and a hat. *)
Definition bobs_order : Order :=
  mkOrder 1
    [mkOrderItem "Shoes" "Running shoes" "s.jpg" "s-large.jpg" 500 2 2;
     mkOrderItem "Hat" "A hat" "h.jpg" "h-large.jpg" 300 1 2]
    1300 2 "ch_1".

Definition after_checkout : World :=
  mkWorld (mkDB [alice; bob; carol] [shoes; hat] [mkCartItem 3 4 2 1]
                [bobs_order]) [].


(** Alice after redeeming her reset token. *)
Definition alice_reset : User :=
  mkUser 1 "Alice" "alice@example.com" "$2a$hunter2" ["USER"] None None.

Definition after_reset : World :=
  mkWorld (mkDB [alice_reset; bob; carol] [shoes; hat] (db_cartItems shop) [])
          [mkCookie "token" "s3cret" true one_year].

(** A store where Carol, an admin, has an order of her own. *)
Definition carols_order : Order :=
  mkOrder 1 [mkOrderItem "Shoes" "Running shoes" "s.jpg" "s-large.jpg" 500 1 3]
          500 3 "ch_7".

Definition archive : World :=
  mkWorld (mkDB [alice; bob; carol] [shoes; hat] [] [carols_order]) [].

(** A transport that is down. *)
Definition failing_transport (m : Mail) : result unit :=
  Err "connect ECONNREFUSED".
Definition toy_email (body : string) : string := body.

(** Alice's new listing. *)
Definition scarf_args : CreateItemArgs :=
  mkCreateItemArgs "Scarf" "Wool scarf" 700 "c.jpg" "c-large.jpg".

Definition scarf : Item :=
  mkItem 3 "Scarf" "Wool scarf" "c.jpg" "c-large.jpg" 700 (Some 1%N).

Definition after_listing : World :=
  mkWorld (mkDB [alice; bob; carol] [shoes; hat; scarf] (db_cartItems shop) [])
          [].

(** Dave, signed up as [Email@Test.com]. *)
Definition dave_args : SignupArgs :=
  mkSignupArgs "Email@Test.com" "Dave" "correct horse".

Definition dave : User :=
  mkUser 4 "Dave" "email@test.com" "$2a$correct horse" ["USER"] None None.

Definition after_signup : World :=
  mkWorld (mkDB [alice; bob; carol; dave] [shoes; hat] (db_cartItems shop) [])
          [mkCookie "token" "s3cret" true one_year].

(** Carol's checkout of her empty cart. *)
Definition empty_order : Order := mkOrder 1 [] 0 3 "ch_1".

(** ** Properties *)

Ltac run :=
  unfold bind, ret, throw, lift, deref, get_db, put_db in *; cbn in *.

(** *** Password reset *)

(** When no user carries the token with an expiry the filter accepts,
    [resetPassword] fails and writes nothing. *)
Lemma resetPassword_no_match env args w :
  String.eqb (rp_password args) (rp_confirmPassword args) = true ->
  filter (where_resetToken (rp_resetToken args) (Date_now env - 3600000)%Z)
         (db_users (db w)) = [] ->
  resetPassword env args w = (Err "This token is wither invalid or expired!", w).
Proof.
  intros Hpw Hnone. unfold resetPassword, db_query_users. rewrite Hpw.
  run. rewrite Hnone. reflexivity.
Qed.

(** C1: the token filter of [resetPassword] compares the expiry with
    [Date.now() - 3600000], not with [Date.now()].  Alice's token expired a
    minute before the call; the call with matching passwords still finds
    her, succeeds, and replaces her password. *)
Theorem resetPassword_accepts_expired_token :
  let args := mkResetPasswordArgs "5f2c9e0b7a" "hunter2" "hunter2" in
  let updated := mkUser 1 "Alice" "alice@example.com"
                        (bcrypt_hash "hunter2" 10 "salt") ["USER"] None None in
  (user_resetTokenExpiry alice = Some 1700000000000%Z /\
   (1700000000000 < Date_now a_minute_late)%Z) /\
  fst (resetPassword a_minute_late args shop_world) = Ok updated /\
  db_users (db (snd (resetPassword a_minute_late args shop_world)))
    = [updated; bob; carol].
Proof.
  cbv zeta. split; [split; [reflexivity | reflexivity] | split; reflexivity].
Qed.

(** *** The permission guard on queries and mutations *)

Lemma existsb_includes2 (a b : string) (ps : list string) :
  existsb (includes [a; b]) ps = includes ps a || includes ps b.
Proof.
  unfold includes. induction ps as [|p ps IH].
  - reflexivity.
  - change (existsb (fun x => existsb (String.eqb x) [a; b]) (p :: ps))
      with ((String.eqb p a || (String.eqb p b || false))
            || existsb (fun x => existsb (String.eqb x) [a; b]) ps).
    rewrite IH. cbn [existsb].
    rewrite (String.eqb_sym a p), (String.eqb_sym b p).
    destruct (String.eqb p a), (String.eqb p b),
      (existsb (String.eqb a) ps), (existsb (String.eqb b) ps); reflexivity.
Qed.

(** What [users] lets through: a session whose cached user holds [ADMIN]
    or the string [PERISSIONUPDATE]. *)
Lemma users_guard ctx w userId user :
  request_userId ctx = Some userId ->
  request_user ctx = Some user ->
  users ctx w =
    if includes (user_permissions user) "ADMIN"
       || includes (user_permissions user) "PERISSIONUPDATE"
    then (Ok (db_users (db w)), w)
    else (Err "You do not have sufficient permissions", w).
Proof.
  intros Hid Hu. unfold users, hasPermission, db_query_users.
  rewrite Hid, Hu. run.
  assert (E := existsb_includes2 "ADMIN" "PERISSIONUPDATE"
                                 (user_permissions user)).
  rewrite E.
  destruct (includes (user_permissions user) "ADMIN"
            || includes (user_permissions user) "PERISSIONUPDATE"); cbn.
  - f_equal. f_equal. induction (db_users (db w)) as [|x l IH]; cbn; congruence.
  - reflexivity.
Qed.

(** C2: Bob holds [PERMISSIONUPDATE] and not [ADMIN].  [updatePermissions]
    lets him through its guard, but [users] asks the guard for
    [PERISSIONUPDATE] and rejects him. *)
Theorem users_rejects_PERMISSIONUPDATE :
  includes (user_permissions bob) "PERMISSIONUPDATE" = true /\
  includes (user_permissions bob) "ADMIN" = false /\
  hasPermission bob ["ADMIN"; "PERMISSIONUPDATE"] = Ok tt /\
  users as_bob shop_world
    = (Err "You do not have sufficient permissions", shop_world) /\
  fst (updatePermissions (mkUpdatePermissionsArgs ["USER"; "ITEMDELETE"] 1)
                         as_bob shop_world)
    = Ok (set_permissions ["USER"; "ITEMDELETE"] alice).
Proof.
  repeat split; reflexivity.
Qed.

(** C3: [updateItem] never looks at the caller.  Without a session, the
    price and title of Alice's item are overwritten; [createItem] refuses the
    same caller. *)
Theorem updateItem_without_session :
  let args := mkUpdateItemArgs 1 (Some "Free shoes") None (Some 0%Z) in
  let updated := mkItem 1 "Free shoes" "Running shoes" "s.jpg" "s-large.jpg"
                        0 (Some 1%N) in
  request_userId anonymous = None /\
  updateItem args anonymous shop_world
    = (Ok updated,
       mkWorld (mkDB [alice; bob; carol] [updated; hat]
                     (db_cartItems shop) []) []) /\
  (forall a ctx ctx' w, updateItem a ctx w = updateItem a ctx' w) /\
  createItem (mkCreateItemArgs "Free shoes" "Running shoes" 0 "s.jpg"
                               "s-large.jpg") anonymous shop_world
    = (Err "You must be logged in to do that!", shop_world).
Proof.
  cbv zeta. repeat split; reflexivity.
Qed.

(** C10: a signed-in caller asking for an existing order gets it exactly
    when the order is theirs and their cached permissions include [ADMIN];
    otherwise the query throws and returns no order. *)
Theorem order_needs_owner_and_admin id ctx w userId user o :
  request_userId ctx = Some userId ->
  request_user ctx = Some user ->
  find (where_order_id id) (db_orders (db w)) = Some o ->
  (order_user o = userId /\ In "ADMIN" (user_permissions user) ->
   order id ctx w = (Ok o, w)) /\
  (~ (order_user o = userId /\ In "ADMIN" (user_permissions user)) ->
   order id ctx w = (Err "You cant see this! :)", w)).
Proof.
  intros Hid Hu Ho.
  assert (Hadmin : includes (user_permissions user) "ADMIN" = true
                   <-> In "ADMIN" (user_permissions user)).
  { unfold includes. rewrite existsb_exists. split.
    - intros [x [Hin Hx]]. apply String.eqb_eq in Hx. now subst.
    - intros Hin. exists "ADMIN". split; [easy | apply String.eqb_refl]. }
  assert (Hrun : order id ctx w =
                 if negb (N.eqb (order_user o) userId)
                    || negb (includes (user_permissions user) "ADMIN")
                 then (Err "You cant see this! :)", w) else (Ok o, w)).
  { unfold order, db_query_order. rewrite Hid, Hu. run. rewrite Ho. run.
    destruct (negb (N.eqb (order_user o) userId)
              || negb (includes (user_permissions user) "ADMIN"));
      reflexivity. }
  rewrite Hrun. split.
  - intros [Hown Hin]. apply Hadmin in Hin. apply N.eqb_eq in Hown.
    rewrite Hown, Hin. reflexivity.
  - intros Hnot.
    destruct (N.eqb (order_user o) userId) eqn:Eown; cbn; [|reflexivity].
    destruct (includes (user_permissions user) "ADMIN") eqn:Eadm; cbn;
      [|reflexivity].
    exfalso. apply Hnot. split; [now apply N.eqb_eq | now apply Hadmin].
Qed.

(** *** Checkout *)

Lemma filter_none_all {A} (p : A -> bool) (l : list A) :
  (forall x, In x l -> p x = false) -> filter p l = [].
Proof.
  induction l as [|x l IH]; cbn; intros H; [reflexivity|].
  rewrite (H x (or_introl eq_refl)). apply IH. intros y Hy. apply H. now right.
Qed.

Lemma find_existsb {A} (p : A -> bool) (l : list A) (x : A) :
  find p l = Some x -> existsb p l = true.
Proof.
  intros H. apply find_some in H. apply existsb_exists. now exists x.
Qed.

(** A successful [createOrder], step by step. *)
Lemma createOrder_inv token ctx w o w' :
  createOrder token ctx w = (Ok o, w') ->
  exists userId user amount charge orderItems,
    request_userId ctx = Some userId /\
    find (where_user_id userId) (db_users (db w)) = Some user /\
    cart_reduce 0 (cart_of (db w) userId) = Some amount /\
    stripe_charges_create amount "USD" token = Ok charge /\
    orderItems_of userId (cart_of (db w) userId) = Some orderItems /\
    o = mkOrder (fresh (map order_id (db_orders (db w)))) orderItems
                (charge_amount charge) userId (charge_id charge) /\
    w' = mkWorld
           (mkDB (db_users (db w)) (db_items (db w))
                 (filter (fun c =>
                            negb (existsb (N.eqb (cart_id c))
                                    (map line_id (cart_of (db w) userId))))
                         (db_cartItems (db w)))
                 (db_orders (db w) ++ [o]))
           (cookies w).
Proof.
  unfold createOrder, db_query_user_cart, db_mutation_createOrder,
    db_mutation_deleteManyCartItems.
  destruct (request_userId ctx) as [userId|]; run; [|discriminate].
  destruct (find (where_user_id userId) (db_users (db w))) as [user|] eqn:Eu;
    run; [|discriminate].
  destruct (cart_reduce 0 (cart_of (db w) userId)) as [amount|] eqn:Ea;
    run; [|discriminate].
  destruct (stripe_charges_create amount "USD" token) as [charge|msg] eqn:Ec;
    run; [|discriminate].
  destruct (orderItems_of userId (cart_of (db w) userId)) as [ois|] eqn:Eo;
    run; [|discriminate].
  rewrite (find_existsb _ _ _ Eu).
  intros H. inversion H; subst; clear H.
  exists userId, user, amount, charge, ois. repeat split; assumption.
Qed.

(** Above [2^53] the doubles are 2 apart, above [2^54] they are 4 apart;
    a tie goes to the even significand. *)
Example round_to_double_ties :
  round_to_double 9007199254740993 = 9007199254740992%Z /\
  round_to_double 9007199254740995 = 9007199254740996%Z /\
  round_to_double (-9007199254740993) = (-9007199254740992)%Z /\
  round_to_double 18014398509481987 = 18014398509481988%Z /\
  round_to_double 18014398509481990 = 18014398509481992%Z.
Proof. repeat split. Qed.




Lemma orderItems_of_snapshot userId cart : forall ois,
  orderItems_of userId cart = Some ois ->
  Forall2 (snapshot userId) cart ois.
Proof.
  induction cart as [|l rest IH]; intros ois H; cbn in H.
  - inversion H. constructor.
  - unfold orderItem_of in H.
    destruct (line_item l) as [it|] eqn:El; [|discriminate].
    destruct (orderItems_of userId rest) as [os|]; [|discriminate].
    inversion H; subst. constructor; [|now apply IH].
    exists it. now split.
Qed.

Lemma snapshot_quantities userId cart ois :
  Forall2 (snapshot userId) cart ois ->
  map oi_quantity ois = map line_quantity cart.
Proof.
  induction 1 as [|l o cart ois [it [_ Ho]] _ IH]; cbn.
  - reflexivity.
  - rewrite IH, Ho. reflexivity.
Qed.

(** The ids [createOrder] hands to [deleteManyCartItems] are the ids of the
    caller's cart items. *)
Lemma cart_of_ids d u :
  map line_id (cart_of d u)
  = map cart_id (filter (fun c => N.eqb (cart_user c) u) (db_cartItems d)).
Proof.
  unfold cart_of. rewrite map_map. reflexivity.
Qed.

Lemma NoDup_map_eq {A B} (f : A -> B) (l : list A) (a b : A) :
  NoDup (map f l) -> In a l -> In b l -> f a = f b -> a = b.
Proof.
  induction l as [|x l IH]; cbn; intros Hnd Ha Hb Hf; [contradiction|].
  inversion Hnd as [|y ys Hnotin Hnd']; subst.
  destruct Ha as [Ha|Ha], Hb as [Hb|Hb]; subst.
  - reflexivity.
  - exfalso. apply Hnotin. rewrite Hf. now apply in_map.
  - exfalso. apply Hnotin. rewrite <- Hf. now apply in_map.
  - now apply IH.
Qed.


(** C5: when the gateway refuses the charge [createOrder] asks for, the
    call throws the gateway's error and the world is as before: no order is
    created and the cart items are untouched. *)
Theorem createOrder_gateway_failure token ctx w userId user amount msg :
  request_userId ctx = Some userId ->
  find (where_user_id userId) (db_users (db w)) = Some user ->
  cart_reduce 0 (cart_of (db w) userId) = Some amount ->
  stripe_charges_create amount "USD" token = Err msg ->
  createOrder token ctx w = (Err msg, w) /\
  db_orders (db (snd (createOrder token ctx w))) = db_orders (db w) /\
  db_cartItems (db (snd (createOrder token ctx w))) = db_cartItems (db w).
Proof.
  intros Hid Hu Ha Hc.
  assert (E : createOrder token ctx w = (Err msg, w)).
  { unfold createOrder, db_query_user_cart. rewrite Hid. run.
    rewrite Hu. run. rewrite Ha. run. rewrite Hc. reflexivity. }
  rewrite E. repeat split.
Qed.

(** C6: after a successful [createOrder] the caller has no cart item left
    and the order holds one snapshot per cart line read, in order, with the
    line's quantity; with ids unique in the store, the cart items deleted
    are exactly the caller's. *)
Theorem createOrder_empties_cart token ctx w userId o w' :
  request_userId ctx = Some userId ->
  createOrder token ctx w = (Ok o, w') ->
  cart_of (db w') userId = [] /\
  (NoDup (map cart_id (db_cartItems (db w))) ->
   db_cartItems (db w')
     = filter (fun c => negb (N.eqb (cart_user c) userId))
              (db_cartItems (db w))) /\
  Forall2 (snapshot userId) (cart_of (db w) userId) (order_items o) /\
  map oi_quantity (order_items o)
    = map line_quantity (cart_of (db w) userId) /\
  In o (db_orders (db w')).
Proof.
  intros Hid H.
  destruct (createOrder_inv _ _ _ _ _ H)
    as (u & user & amount & charge & ois & Hid' & _ & _ & _ & Hois & Ho & Hw).
  rewrite Hid in Hid'. inversion Hid'; subst u; clear Hid'.
  apply orderItems_of_snapshot in Hois.
  assert (Hitems : order_items o = ois) by (rewrite Ho; reflexivity).
  rewrite Hitems. split; [|split; [|split; [|split]]].
  - unfold cart_of. rewrite Hw. cbn [db db_cartItems db_items].
    rewrite cart_of_ids.
    replace (filter _ (filter _ (db_cartItems (db w)))) with (@nil CartItem);
      [reflexivity|].
    symmetry. apply filter_none_all. intros c Hc.
    apply filter_In in Hc. destruct Hc as [Hc Hkept].
    destruct (N.eqb (cart_user c) userId) eqn:Eown; [|reflexivity].
    exfalso. apply negb_true_iff in Hkept.
    assert (existsb (N.eqb (cart_id c))
              (map cart_id
                 (filter (fun c0 => N.eqb (cart_user c0) userId)
                         (db_cartItems (db w)))) = true); [|congruence].
    apply existsb_exists. exists (cart_id c). split; [|apply N.eqb_refl].
    apply in_map. apply filter_In. now split.
  - intros Hnd. rewrite Hw. cbn [db db_cartItems].
    apply filter_ext_in. intros c Hc. f_equal. rewrite cart_of_ids.
    destruct (N.eqb (cart_user c) userId) eqn:Eown.
    + apply existsb_exists. exists (cart_id c). split; [|apply N.eqb_refl].
      apply in_map. apply filter_In. now split.
    + destruct (existsb _ _) eqn:Eex; [|reflexivity].
      apply existsb_exists in Eex. destruct Eex as [i [Hi Heq]].
      apply N.eqb_eq in Heq. apply in_map_iff in Hi.
      destruct Hi as [c' [Hc' Hin']]. apply filter_In in Hin'.
      destruct Hin' as [Hin' Hown'].
      assert (c = c') by (eapply NoDup_map_eq; eauto; congruence).
      subst c'. congruence.
  - exact Hois.
  - now apply snapshot_quantities with (userId := userId).
  - rewrite Hw. cbn. apply in_or_app. right. now left.
Qed.

(** *** The cart *)

Lemma fresh_above ids i : In i ids -> (i < fresh ids)%N.
Proof.
  unfold fresh. induction ids as [|j ids IH]; cbn [fold_right In].
  - contradiction.
  - intros [->|Hin]; [lia|]. specialize (IH Hin). lia.
Qed.

Lemma find_app {A} (p : A -> bool) (l l' : list A) :
  find p (l ++ l') = match find p l with
                     | Some x => Some x
                     | None => find p l'
                     end.
Proof.
  induction l as [|x l IH]; cbn; [reflexivity|].
  destruct (p x); [reflexivity | exact IH].
Qed.

Lemma find_none_all {A} (p : A -> bool) (l : list A) :
  (forall x, In x l -> p x = false) -> find p l = None.
Proof.
  induction l as [|x l IH]; cbn; intros H; [reflexivity|].
  rewrite (H x (or_introl eq_refl)). apply IH. intros y Hy. apply H. now right.
Qed.

Lemma map_if_none {A} (p : A -> bool) (f : A -> A) (l : list A) :
  (forall x, In x l -> p x = false) ->
  map (fun v => if p v then f v else v) l = l.
Proof.
  induction l as [|x l IH]; cbn; intros H; [reflexivity|].
  rewrite (H x (or_introl eq_refl)). f_equal. apply IH.
  intros y Hy. apply H. now right.
Qed.

Lemma fresh_cart_id_unused (cs : list CartItem) (c : CartItem) :
  In c cs -> where_cart_id (fresh (map cart_id cs)) c = false.
Proof.
  intros Hin. unfold where_cart_id. apply N.eqb_neq.
  pose proof (fresh_above (map cart_id cs) (cart_id c) (in_map _ _ _ Hin)).
  lia.
Qed.

(** C7: for a signed-in user and an item not yet in their cart, a first
    [addToCart] creates one cart item with quantity 1 for the pair, and a
    second [addToCart] returns that same row, of the same id, user and item,
    with quantity 2: the pair has exactly one row after each call, of
    quantity 1 and then 2, and the second call adds no row. *)
Theorem addToCart_twice id ctx w userId :
  request_userId ctx = Some userId ->
  existsb (where_user_id userId) (db_users (db w)) = true ->
  existsb (where_item_id id) (db_items (db w)) = true ->
  filter (where_cart_user_item userId id) (db_cartItems (db w)) = [] ->
  exists c w1 c2 w2,
    addToCart id ctx w = (Ok c, w1) /\
    cart_quantity c = 1%Z /\ cart_user c = userId /\ cart_item c = id /\
    filter (where_cart_user_item userId id) (db_cartItems (db w1)) = [c] /\
    addToCart id ctx w1 = (Ok c2, w2) /\
    c2 = mkCartItem (cart_id c) 2 id userId /\
    cart_quantity c2 = 2%Z /\
    filter (where_cart_user_item userId id) (db_cartItems (db w2)) = [c2] /\
    List.length (db_cartItems (db w2)) = List.length (db_cartItems (db w1)).
Proof.
  intros Hid Hu Hi Hnone.
  set (cs := db_cartItems (db w)) in *.
  set (c := mkCartItem (fresh (map cart_id cs)) CartItem_quantity_default
                       id userId).
  assert (Hpair : where_cart_user_item userId id c = true).
  { unfold where_cart_user_item. cbn. now rewrite !N.eqb_refl. }
  assert (Hunused : forall x, In x cs -> where_cart_id (cart_id c) x = false).
  { intros x Hx. now apply fresh_cart_id_unused. }
  assert (Hself : where_cart_id (cart_id c) c = true).
  { unfold where_cart_id. apply N.eqb_refl. }
  exists c.
  exists (mkWorld (set_cartItems (db w) (cs ++ [c])) (cookies w)).
  exists (set_quantity 2 c).
  exists (mkWorld (set_cartItems (db w) (cs ++ [set_quantity 2 c])) (cookies w)).
  assert (Hfirst : filter (where_cart_user_item userId id) (cs ++ [c]) = [c]).
  { rewrite filter_app, Hnone. cbn. now rewrite Hpair. }
  repeat split.
  - unfold addToCart, db_query_cartItems, db_mutation_createCartItem.
    rewrite Hid. run. fold cs. rewrite Hnone. run. rewrite Hu, Hi. reflexivity.
  - exact Hfirst.
  - unfold addToCart, db_query_cartItems, db_mutation_updateCartItem.
    rewrite Hid. run. rewrite Hfirst. run.
    rewrite find_app, (find_none_all _ _ Hunused). cbn [find].
    fold (where_cart_id (cart_id c) c). rewrite Hself. cbn.
    rewrite map_app, (map_if_none _ _ _ Hunused). cbn [map].
    fold (where_cart_id (cart_id c) c). rewrite Hself. reflexivity.
  - cbn. rewrite filter_app, Hnone. cbn.
    unfold where_cart_user_item. cbn. now rewrite !N.eqb_refl.
  - cbn. rewrite !length_app. reflexivity.
Qed.

(** *** Redeeming a reset token *)

Lemma filter_one {A} (p : A -> bool) (l : list A) (a : A) :
  In a l -> p a = true -> (1 <= List.length (filter p l))%nat.
Proof.
  intros Hin Hp.
  assert (H : In a (filter p l)) by (apply filter_In; now split).
  destruct (filter p l); [contradiction | cbn; lia].
Qed.

Lemma filter_two {A} (p : A -> bool) (l : list A) (a b : A) :
  In a l -> In b l -> a <> b -> p a = true -> p b = true ->
  (2 <= List.length (filter p l))%nat.
Proof.
  induction l as [|x l IH]; cbn; intros Ha Hb Hab Hpa Hpb; [contradiction|].
  destruct Ha as [Ha|Ha], Hb as [Hb|Hb].
  - congruence.
  - subst x. rewrite Hpa. cbn. pose proof (filter_one p l b Hb Hpb). lia.
  - subst x. rewrite Hpb. cbn. pose proof (filter_one p l a Ha Hpa). lia.
  - specialize (IH Ha Hb Hab Hpa Hpb). destruct (p x); cbn; lia.
Qed.

Lemma where_resetToken_holds t e u :
  where_resetToken t e u = true -> holds_token t u = true.
Proof.
  unfold where_resetToken, holds_token.
  destruct (user_resetToken u); [|discriminate].
  destruct (user_resetTokenExpiry u); [|discriminate].
  intros H. now apply andb_true_iff in H.
Qed.

(** A successful [resetPassword], step by step. *)
Lemma resetPassword_inv env args w u w' :
  resetPassword env args w = (Ok u, w') ->
  exists user rest row,
    filter (where_resetToken (rp_resetToken args) (Date_now env - 3600000)%Z)
           (db_users (db w)) = user :: rest /\
    find (where_user_email (user_email user)) (db_users (db w)) = Some row /\
    u = set_password_clear_token
          (bcrypt_hash (rp_password args) 10 (bcrypt_salt env)) row /\
    db_users (db w')
    = map (fun v =>
             if where_user_email (user_email user) v
             then set_password_clear_token
                    (bcrypt_hash (rp_password args) 10 (bcrypt_salt env)) v
             else v)
          (db_users (db w)).
Proof.
  unfold resetPassword, db_query_users, db_mutation_updateUser,
    response_cookie.
  destruct (negb (String.eqb (rp_password args) (rp_confirmPassword args)));
    run; [discriminate|].
  destruct (filter _ (db_users (db w))) as [|user rest] eqn:Ef;
    run; [discriminate|].
  destruct (find (where_user_email (user_email user)) (db_users (db w)))
    as [row|] eqn:Er; run; [|discriminate].
  intros H. inversion H; subst; clear H.
  exists user, rest, row. repeat split. exact Er.
Qed.

(** C8: a successful [resetPassword] leaves the redeemed user without
    token and expiry; when no other user carried the same token string, no
    user carries it afterwards, and any later [resetPassword] presenting
    that string selects nobody and fails, whatever the time and the
    passwords. *)
Theorem resetPassword_single_use env args w u w' env' args' :
  resetPassword env args w = (Ok u, w') ->
  (List.length (filter (holds_token (rp_resetToken args)) (db_users (db w)))
   <= 1)%nat ->
  rp_resetToken args' = rp_resetToken args ->
  user_resetToken u = None /\
  user_resetTokenExpiry u = None /\
  filter (holds_token (rp_resetToken args)) (db_users (db w')) = [] /\
  filter (where_resetToken (rp_resetToken args') (Date_now env' - 3600000)%Z)
         (db_users (db w')) = [] /\
  exists msg, resetPassword env' args' w' = (Err msg, w').
Proof.
  intros Hok Huniq Hsame.
  destruct (resetPassword_inv _ _ _ _ _ Hok)
    as (user & rest & row & Hf & _ & Hu & Hw).
  assert (Huser : In user (db_users (db w))
                  /\ holds_token (rp_resetToken args) user = true).
  { assert (Hin : In user (user :: rest)) by now left.
    rewrite <- Hf in Hin. apply filter_In in Hin. destruct Hin as [Hin Hp].
    split; [exact Hin | now apply where_resetToken_holds in Hp]. }
  destruct Huser as [Huin Hutok].
  assert (Hgone : forall v, In v (db_users (db w')) ->
                            holds_token (rp_resetToken args) v = false).
  { intros v Hv. rewrite Hw in Hv. apply in_map_iff in Hv.
    destruct Hv as [v0 [Hv0 Hin0]].
    destruct (where_user_email (user_email user) v0) eqn:Em.
    - subst v. reflexivity.
    - subst v. destruct (holds_token (rp_resetToken args) v0) eqn:Eh;
        [|reflexivity].
      assert (Hneq : user <> v0).
      { intros ->. unfold where_user_email in Em.
        rewrite String.eqb_refl in Em. discriminate. }
      pose proof (filter_two _ _ _ _ Huin Hin0 Hneq Hutok Eh). lia. }
  assert (Hnone : forall e,
             filter (where_resetToken (rp_resetToken args') e)
                    (db_users (db w')) = []).
  { intros e. apply filter_none_all. intros v Hv. rewrite Hsame.
    destruct (where_resetToken (rp_resetToken args) e v) eqn:E; [|reflexivity].
    apply where_resetToken_holds in E. rewrite (Hgone v Hv) in E.
    discriminate. }
  repeat split.
  - rewrite Hu. reflexivity.
  - rewrite Hu. reflexivity.
  - now apply filter_none_all.
  - apply Hnone.
  - destruct (String.eqb (rp_password args') (rp_confirmPassword args')) eqn:Ep.
    + eexists. apply resetPassword_no_match; [exact Ep | apply Hnone].
    + eexists. unfold resetPassword. rewrite Ep. reflexivity.
Qed.

(** *** Signing up and signing in *)

(** [signup] stores the lowercased email and the hash, and [signin] with the
    lowercased email and the same password then returns the stored user. *)
Lemma signup_then_signin env args w :
  verifies bcrypt_hash bcrypt_compare ->
  existsb (where_user_email (toLowerCase (su_email args))) (db_users (db w))
    = false ->
  exists u w1 w2,
    signup env args w = (Ok u, w1) /\
    user_email u = toLowerCase (su_email args) /\
    user_password u = bcrypt_hash (su_password args) 10 (bcrypt_salt env) /\
    user_permissions u = ["USER"] /\
    db_users (db w1) = db_users (db w) ++ [u] /\
    signin (toLowerCase (su_email args)) (su_password args) w1 = (Ok u, w2).
Proof.
  intros Hv Hfree.
  set (e := toLowerCase (su_email args)) in *.
  set (u := mkUser (fresh (map user_id (db_users (db w)))) (su_name args) e
                   (bcrypt_hash (su_password args) 10 (bcrypt_salt env))
                   ["USER"] None None).
  assert (Hnone : find (where_user_email e) (db_users (db w)) = None).
  { apply find_none_all. intros x Hx.
    destruct (where_user_email e x) eqn:E; [|reflexivity].
    assert (existsb (where_user_email e) (db_users (db w)) = true)
      by (apply existsb_exists; now exists x).
    congruence. }
  exists u. eexists. eexists.
  split; [|split; [|split; [|split; [|split]]]].
  - unfold signup, db_mutation_createUser, response_cookie. run. fold e.
    rewrite Hfree. reflexivity.
  - reflexivity.
  - reflexivity.
  - reflexivity.
  - reflexivity.
  - unfold signin, db_query_user, response_cookie. run.
    rewrite find_app, Hnone. cbn [find].
    unfold where_user_email at 1. cbn [user_email u].
    rewrite String.eqb_refl. cbn. rewrite Hv. reflexivity.
Qed.

(** C9: signing up with [Email@Test.com] on a store where
    [email@test.com] is not registered stores the user under
    [email@test.com] with a hash that verifies against the password, and
    signing in with [email@test.com] and that password returns this
    user. *)
Theorem signup_signin_roundtrip env name password w :
  verifies bcrypt_hash bcrypt_compare ->
  existsb (where_user_email "email@test.com") (db_users (db w)) = false ->
  exists u w1 w2,
    signup env (mkSignupArgs "Email@Test.com" name password) w = (Ok u, w1) /\
    user_email u = "email@test.com" /\
    In u (db_users (db w1)) /\
    bcrypt_compare password (user_password u) = true /\
    signin "email@test.com" password w1 = (Ok u, w2).
Proof.
  intros Hv Hfree.
  destruct (signup_then_signin env
              (mkSignupArgs "Email@Test.com" name password) w Hv Hfree)
    as (u & w1 & w2 & Hup & He & Hp & _ & Hin & Hsi).
  exists u, w1, w2. repeat split.
  - exact Hup.
  - exact He.
  - rewrite Hin. apply in_or_app. right. now left.
  - rewrite Hp. apply Hv.
  - exact Hsi.
Qed.

(** ** Further properties of the resolvers *)

Lemma includes_In (l : list string) (x : string) :
  includes l x = true <-> In x l.
Proof.
  unfold includes. rewrite existsb_exists. split.
  - intros [y [Hin Hy]]. apply String.eqb_eq in Hy. now subst.
  - intros Hin. exists x. split; [easy | apply String.eqb_refl].
Qed.

Lemma world_eta (w : World) : mkWorld (db w) (cookies w) = w.
Proof. now destruct w. Qed.

(** *** Items *)

(** X1: a [createItem] that succeeds was called with a session; the item it
    returns carries the arguments, belongs to the session's user, has an id
    no item had before, and is the only change to the world. *)
Theorem createItem_owned_by_caller args ctx w it w' :
  createItem args ctx w = (Ok it, w') ->
  exists userId,
    request_userId ctx = Some userId /\
    item_user it = Some userId /\
    item_title it = ci_title args /\
    item_description it = ci_description args /\
    item_price it = ci_price args /\
    item_image it = ci_image args /\
    item_largeImage it = ci_largeImage args /\
    ~ In (item_id it) (map item_id (db_items (db w))) /\
    w' = mkWorld (set_items (db w) (db_items (db w) ++ [it])) (cookies w).
Proof.
  unfold createItem, db_mutation_createItem.
  destruct (request_userId ctx) as [userId|]; run; [|discriminate].
  destruct (existsb (where_user_id userId) (db_users (db w)));
    run; [|discriminate].
  intros H. inversion H; subst; clear H. exists userId.
  repeat split. cbn. intros Hin. apply fresh_above in Hin. lia.
Qed.

(** X2: on a request without a session no mutation that asks for one
    changes anything: [createItem], [deleteItem], [updatePermissions],
    [addToCart], [removeFromCart] and [createOrder] all throw and leave the
    world as it was. *)
Theorem anonymous_cannot_mutate ctx w :
  request_userId ctx = None ->
  request_user ctx = None ->
  (forall args,
      createItem args ctx w = (Err "You must be logged in to do that!", w)) /\
  (forall id, exists msg, deleteItem id ctx w = (Err msg, w)) /\
  (forall args, updatePermissions args ctx w = (Err "You must be logged in!", w)) /\
  (forall id, addToCart id ctx w = (Err "You must be logged in!", w)) /\
  (forall id, exists msg, removeFromCart id ctx w = (Err msg, w)) /\
  (forall token, createOrder token ctx w = (Err "You must be signed in!", w)).
Proof.
  intros Hid Hu. repeat split.
  - intros args. unfold createItem. now rewrite Hid.
  - intros id. unfold deleteItem, db_query_item. rewrite Hu. run.
    destruct (find (where_item_id id) (db_items (db w))) as [it|]; run;
      [|eexists; reflexivity].
    destruct (item_user it); run; eexists; reflexivity.
  - intros args. unfold updatePermissions. now rewrite Hid.
  - intros id. unfold addToCart. now rewrite Hid.
  - intros id. unfold removeFromCart, db_query_cartItem. rewrite Hid. run.
    destruct (find (where_cart_id id) (db_cartItems (db w))); run;
      eexists; reflexivity.
  - intros token. unfold createOrder. now rewrite Hid.
Qed.

Lemma may_delete_guard ctx user owner :
  negb (match request_userId ctx with
        | Some userId => N.eqb userId owner
        | None => false
        end)
  && negb (existsb (includes ["ADMIN"; "ITEMDELETE"]) (user_permissions user))
  = false
  <-> may_delete ctx user owner.
Proof.
  unfold may_delete. rewrite existsb_includes2, <- !includes_In.
  destruct (request_userId ctx) as [u|].
  - destruct (N.eqb_spec u owner) as [Heq|Hne]; cbn.
    + split; [intros _; left; now rewrite Heq | reflexivity].
    + rewrite negb_false_iff, orb_true_iff. split.
      * intros H. now right.
      * intros [H|H]; [inversion H; congruence | exact H].
  - cbn. rewrite negb_false_iff, orb_true_iff. split.
    + intros H. now right.
    + intros [H|H]; [discriminate | exact H].
Qed.

(** X3: [deleteItem] on an existing item, for a caller with a cached user
    record: the owner, an [ADMIN] and a holder of [ITEMDELETE] delete the
    item, which is then no longer found while every other item stays;
    anybody else gets an error and nothing is deleted. *)
Theorem deleteItem_guard id ctx w item owner user :
  find (where_item_id id) (db_items (db w)) = Some item ->
  item_user item = Some owner ->
  request_user ctx = Some user ->
  (may_delete ctx user owner ->
   exists w',
     deleteItem id ctx w = (Ok item, w') /\
     find (where_item_id id) (db_items (db w')) = None /\
     (forall it, item_id it <> id ->
                 (In it (db_items (db w')) <-> In it (db_items (db w)))) /\
     db_users (db w') = db_users (db w) /\
     db_cartItems (db w') = db_cartItems (db w) /\
     db_orders (db w') = db_orders (db w)) /\
  (~ may_delete ctx user owner ->
   deleteItem id ctx w = (Err "You don't have permission to do that!", w)).
Proof.
  intros Hitem Hown Hu.
  set (ownsItem := match request_userId ctx with
                   | Some userId => N.eqb userId owner
                   | None => false
                   end).
  set (hasPermissions :=
         existsb (includes ["ADMIN"; "ITEMDELETE"]) (user_permissions user)).
  assert (Hrun : deleteItem id ctx w =
                 if negb ownsItem && negb hasPermissions
                 then (Err "You don't have permission to do that!", w)
                 else (Ok item,
                       mkWorld
                         (set_items (db w)
                            (filter (fun v => negb (where_item_id id v))
                                    (db_items (db w))))
                         (cookies w))).
  { unfold deleteItem, db_query_item, db_mutation_deleteItem. run.
    rewrite Hitem. run. rewrite Hown, Hu. run. fold ownsItem hasPermissions.
    destruct (negb ownsItem && negb hasPermissions); [reflexivity|].
    rewrite Hitem. reflexivity. }
  assert (Hdec := may_delete_guard ctx user owner).
  fold ownsItem hasPermissions in Hdec.
  rewrite Hrun. split.
  - intros Hmay. apply Hdec in Hmay. rewrite Hmay.
    eexists. split; [reflexivity|]. cbn. repeat split.
    + apply find_none_all. intros x Hx. apply filter_In in Hx.
      destruct Hx as [_ Hx]. now apply negb_true_iff in Hx.
    + intros Hin. apply filter_In in Hin. exact (proj1 Hin).
    + intros Hin. apply filter_In. split; [exact Hin|].
      apply negb_true_iff. unfold where_item_id. now apply N.eqb_neq.
  - intros Hnot.
    destruct (negb ownsItem && negb hasPermissions) eqn:E; [reflexivity|].
    exfalso. apply Hnot. now apply Hdec.
Qed.

(** *** Queries *)

(** X4: the queries only read: whatever they answer, the world is the one
    they were called in; without a session [me] answers [null] and
    [users], [order] and [orders] throw. *)
Theorem queries_read_only ctx w :
  (snd (me ctx w) = w /\ snd (users ctx w) = w /\
   (forall id, snd (order id ctx w) = w) /\ snd (orders ctx w) = w) /\
  (request_userId ctx = None ->
   me ctx w = (Ok None, w) /\
   users ctx w = (Err "You must be logged in!", w) /\
   (forall id, order id ctx w = (Err "You must be logged in!", w)) /\
   orders ctx w = (Err "You must be logged in!", w)).
Proof.
  split.
  - unfold me, users, order, orders, db_query_user, db_query_users,
      db_query_order, db_query_orders, hasPermission.
    destruct (request_userId ctx) as [userId|]; run; repeat split.
    + destruct (request_user ctx) as [u|]; run; [|reflexivity].
      destruct (existsb _ (user_permissions u)); reflexivity.
    + intros id.
      destruct (find (where_order_id id) (db_orders (db w))) as [o|]; run;
        [|reflexivity].
      destruct (request_user ctx) as [u|]; run; [|reflexivity].
      destruct (negb (N.eqb (order_user o) userId)
                || negb (includes (user_permissions u) "ADMIN")); reflexivity.
  - intros Hid. unfold me, users, order, orders. rewrite Hid. repeat split.
Qed.

(** X5: with a session, [orders] answers with the orders of the caller:
    every order of the store that belongs to the session's user and no
    other. *)
Theorem orders_lists_own_orders ctx w userId :
  request_userId ctx = Some userId ->
  exists os,
    orders ctx w = (Ok os, w) /\
    (forall o, In o os <-> In o (db_orders (db w)) /\ order_user o = userId).
Proof.
  intros Hid. unfold orders, db_query_orders. rewrite Hid. run.
  eexists. split; [reflexivity|]. intros o. rewrite filter_In.
  now rewrite N.eqb_eq.
Qed.

(** *** Requesting and redeeming a reset token *)

Lemma find_map_preserved {A} (p : A -> bool) (f : A -> A) (l : list A) :
  (forall x, p (f x) = p x) ->
  find p (map f l) = option_map f (find p l).
Proof.
  intros Hp. induction l as [|x l IH]; cbn; [reflexivity|].
  rewrite Hp. destruct (p x); [reflexivity | exact IH].
Qed.

Lemma filter_map_preserved {A} (p : A -> bool) (f : A -> A) (l : list A) :
  (forall x, p (f x) = p x) ->
  filter p (map f l) = map f (filter p l).
Proof.
  intros Hp. induction l as [|x l IH]; cbn; [reflexivity|].
  rewrite Hp. destruct (p x); cbn; now rewrite IH.
Qed.

Lemma find_filter_head {A} (p : A -> bool) (l : list A) (x : A) :
  find p l = Some x -> exists rest, filter p l = x :: rest.
Proof.
  induction l as [|y l IH]; cbn; [discriminate|].
  destruct (p y) eqn:E.
  - intros H. inversion H; subst. now eexists.
  - exact IH.
Qed.

Lemma issue_email email token expiry e v :
  where_user_email e (issue email token expiry v) = where_user_email e v.
Proof.
  unfold issue. destruct (where_user_email email v); reflexivity.
Qed.

(** What [requestReset] does once the email is found. *)
Lemma requestReset_run env email w user :
  find (where_user_email email) (db_users (db w)) = Some user ->
  requestReset env email w =
    (match transport_sendMail
             (reset_mail (user_email user) (randomBytes_hex env)) with
     | Ok _ => Ok "Thanks!"
     | Err msg => Err msg
     end,
     mkWorld (set_users (db w)
                (map (issue email (randomBytes_hex env)
                            (Date_now env + 3600000)%Z)
                     (db_users (db w))))
             (cookies w)).
Proof.
  intros Hu. unfold requestReset, db_query_user, db_mutation_updateUser.
  run. rewrite Hu. run. rewrite Hu. run. unfold reset_mail, issue.
  destruct (transport_sendMail _); reflexivity.
Qed.

(** X6: [requestReset] for an unknown email throws and writes nothing.
    For a registered email it stores the drawn token and the expiry
    [Date.now() + 3600000] on the user of that email, replacing any token
    held before, and leaves every other user as it was; it does so before
    the mail is sent, so the token stays stored when the transport fails
    and the call throws. *)
Theorem requestReset_stores_token env email w :
  (find (where_user_email email) (db_users (db w)) = None ->
   requestReset env email w
   = (Err ("No such user found for email " ++ email), w)) /\
  (forall user,
      find (where_user_email email) (db_users (db w)) = Some user ->
      let w' := snd (requestReset env email w) in
      (forall v, In v (db_users (db w')) ->
         user_email v = email ->
         user_resetToken v = Some (randomBytes_hex env) /\
         user_resetTokenExpiry v = Some (Date_now env + 3600000)%Z) /\
      (forall v, user_email v <> email ->
         (In v (db_users (db w')) <-> In v (db_users (db w)))) /\
      find (where_user_email email) (db_users (db w'))
      = Some (set_resetToken (randomBytes_hex env)
                             (Date_now env + 3600000)%Z user) /\
      fst (requestReset env email w)
      = match transport_sendMail
                (reset_mail (user_email user) (randomBytes_hex env)) with
        | Ok _ => Ok "Thanks!"
        | Err msg => Err msg
        end).
Proof.
  split.
  - intros Hnone. unfold requestReset, db_query_user. run.
    rewrite Hnone. reflexivity.
  - intros user Hu. cbv zeta. rewrite (requestReset_run _ _ _ _ Hu).
    cbn [fst snd db db_users set_users].
    assert (Hmatch : where_user_email email user = true)
      by (now apply find_some in Hu).
    split; [|split; [|split; [|reflexivity]]].
    + intros v Hin He. apply in_map_iff in Hin.
      destruct Hin as [v0 [Hv0 _]]. subst v.
      unfold issue in *. destruct (where_user_email email v0) eqn:E;
        [split; reflexivity|].
      unfold where_user_email in E. rewrite He, String.eqb_refl in E.
      discriminate.
    + intros v Hne. split.
      * intros Hin. apply in_map_iff in Hin.
        destruct Hin as [v0 [Hv0 Hin0]].
        unfold issue in Hv0. destruct (where_user_email email v0) eqn:E.
        -- exfalso. apply Hne. subst v. cbn. now apply String.eqb_eq in E.
        -- now subst.
      * intros Hin. apply in_map_iff. exists v. split; [|exact Hin].
        unfold issue. destruct (where_user_email email v) eqn:E;
          [|reflexivity].
        exfalso. apply Hne. now apply String.eqb_eq in E.
    + rewrite find_map_preserved by (intros x; apply issue_email).
      rewrite Hu. cbn. unfold issue. now rewrite Hmatch.
Qed.

(** X7: the token [requestReset] issued redeems with [resetPassword] as long
    as the clock has not passed the issue time by more than 7200000 ms (the
    hour added when the expiry is stored and the hour subtracted when it is
    checked): the user of that email gets the hash of the new password and
    loses token and expiry; later than that the call throws and writes
    nothing.  No other user holds the drawn token. *)
Theorem requestReset_then_resetPassword env email w user env' password :
  find (where_user_email email) (db_users (db w)) = Some user ->
  forallb (fun v => where_user_email email v
                    || negb (holds_token (randomBytes_hex env) v))
          (db_users (db w)) = true ->
  let w1 := snd (requestReset env email w) in
  let args := mkResetPasswordArgs (randomBytes_hex env) password password in
  ((Date_now env' <= Date_now env + 7200000)%Z ->
   exists w2,
     resetPassword env' args w1
     = (Ok (set_password_clear_token
              (bcrypt_hash password 10 (bcrypt_salt env')) user), w2) /\
     find (where_user_email email) (db_users (db w2))
     = Some (set_password_clear_token
               (bcrypt_hash password 10 (bcrypt_salt env')) user)) /\
  ((Date_now env + 7200000 < Date_now env')%Z ->
   resetPassword env' args w1
   = (Err "This token is wither invalid or expired!", w1)).
Proof.
  intros Hu Hothers. cbv zeta. rewrite (requestReset_run _ _ _ _ Hu).
  cbn [snd].
  set (hex := randomBytes_hex env) in *.
  set (f := issue email hex (Date_now env + 3600000)%Z).
  set (w1 := mkWorld (set_users (db w) (map f (db_users (db w)))) (cookies w)).
  assert (Hmatch : where_user_email email user = true)
    by (now apply find_some in Hu).
  assert (Hemail : user_email user = email)
    by (now apply String.eqb_eq in Hmatch).
  assert (Hsel : forall e v, In v (db_users (db w)) ->
             where_resetToken hex e (f v)
             = where_user_email email v && (e <=? Date_now env + 3600000)%Z).
  { intros e v Hin. unfold f, issue.
    destruct (where_user_email email v) eqn:E; cbn.
    - unfold where_resetToken. cbn. now rewrite String.eqb_refl.
    - rewrite forallb_forall in Hothers. specialize (Hothers v Hin).
      rewrite E in Hothers. cbn in Hothers. apply negb_true_iff in Hothers.
      destruct (where_resetToken hex e v) eqn:Ew; [|reflexivity].
      apply where_resetToken_holds in Ew. congruence. }
  assert (Hfilter : forall e,
             filter (where_resetToken hex e) (db_users (db w1))
             = map f (filter (fun v => where_user_email email v
                                       && (e <=? Date_now env + 3600000)%Z)
                             (db_users (db w)))).
  { intros e. cbn. rewrite filter_map_swap. f_equal.
    apply filter_ext_in. intros v Hin. now apply Hsel. }
  split.
  - intros Hnow.
    assert (Hin_time : (Date_now env' - 3600000 <=? Date_now env + 3600000)%Z
                       = true) by (apply Z.leb_le; lia).
    destruct (find_filter_head _ _ _ Hu) as [rest Hrest].
    unfold resetPassword, db_query_users, db_mutation_updateUser,
      response_cookie.
    cbn [rp_password rp_confirmPassword rp_resetToken].
    rewrite String.eqb_refl. run.
    pose proof (Hfilter (Date_now env' - 3600000)%Z) as Hf. cbn in Hf.
    rewrite Hf. rewrite Hin_time.
    rewrite (filter_ext _ (where_user_email email))
      by (intros v; apply andb_true_r).
    rewrite Hrest. cbn [map].
    assert (Hfuser : f user = set_resetToken hex (Date_now env + 3600000)%Z
                                             user)
      by (unfold f, issue; now rewrite Hmatch).
    rewrite Hfuser. cbn [user_email set_resetToken]. rewrite Hemail.
    assert (Hfind1 : find (where_user_email email) (db_users (db w1))
                     = Some (f user)).
    { cbn. rewrite find_map_preserved by (intros x; apply issue_email).
      now rewrite Hu. }
    rewrite Hfind1, Hfuser. cbn.
    eexists. split; [reflexivity|]. cbn.
    rewrite find_map_preserved.
    + fold f. change (find (where_user_email email) (db_users (db w1))
                      = Some (f user)) in Hfind1. cbn in Hfind1.
      rewrite Hfind1. cbn. unfold f at 1. rewrite issue_email, Hmatch, Hfuser.
      reflexivity.
    + intros x. destruct (where_user_email email x) eqn:E; [|exact E].
      unfold where_user_email in *. exact E.
  - intros Hlate.
    assert (Hout : (Date_now env' - 3600000 <=? Date_now env + 3600000)%Z
                   = false) by (apply Z.leb_gt; lia).
    apply resetPassword_no_match.
    + cbn. apply String.eqb_refl.
    + cbn [rp_resetToken]. rewrite Hfilter, Hout.
      rewrite (filter_ext _ (fun _ => false))
        by (intros v; apply andb_false_r).
      rewrite filter_none_all by (intros; reflexivity). reflexivity.
Qed.

(** X8: a [resetPassword] that throws has written nothing: neither a
    password nor a cookie. *)
Theorem resetPassword_failure_atomic env args w msg w' :
  resetPassword env args w = (Err msg, w') -> w' = w.
Proof.
  unfold resetPassword, db_query_users, db_mutation_updateUser,
    response_cookie.
  destruct (negb (String.eqb (rp_password args) (rp_confirmPassword args)));
    run; [intros H; now inversion H|].
  destruct (filter _ (db_users (db w))) as [|user rest] eqn:Ef;
    run; [intros H; now inversion H|].
  destruct (find (where_user_email (user_email user)) (db_users (db w)))
    as [row|] eqn:Er; run; [discriminate|].
  exfalso.
  assert (Hin : In user (user :: rest)) by now left.
  rewrite <- Ef in Hin. apply filter_In in Hin. destruct Hin as [Hin _].
  pose proof (find_none _ _ Er user Hin) as Hno.
  unfold where_user_email in Hno. rewrite String.eqb_refl in Hno.
  discriminate.
Qed.


(** *** Changing permissions *)


(** X11: when the session's user, as stored, holds neither [ADMIN] nor
    [PERMISSIONUPDATE], [updatePermissions] throws and no permission
    changes. *)
Theorem updatePermissions_rejects args ctx w userId caller :
  request_userId ctx = Some userId ->
  find (where_user_id userId) (db_users (db w)) = Some caller ->
  ~ In "ADMIN" (user_permissions caller) ->
  ~ In "PERMISSIONUPDATE" (user_permissions caller) ->
  updatePermissions args ctx w
  = (Err "You do not have sufficient permissions", w).
Proof.
  intros Hid Hc Ha Hp. unfold updatePermissions, db_query_user, hasPermission.
  rewrite Hid. run. rewrite Hc. run. rewrite existsb_includes2.
  destruct (includes (user_permissions caller) "ADMIN") eqn:E1;
    [now apply includes_In in E1|].
  destruct (includes (user_permissions caller) "PERMISSIONUPDATE") eqn:E2;
    [now apply includes_In in E2|].
  reflexivity.
Qed.

(** *** The cart, continued *)

(** X12: [removeFromCart] deletes a cart item only for the user it belongs
    to: that call returns the row, after which the id is no longer found and
    the rows of other ids are all still there; for any other caller the call
    throws and the cart item stays; for an id that is not in the store it
    throws as well. *)
Theorem removeFromCart_owner_only id ctx w :
  (find (where_cart_id id) (db_cartItems (db w)) = None ->
   removeFromCart id ctx w = (Err "No CartItem found!", w)) /\
  (forall c,
      find (where_cart_id id) (db_cartItems (db w)) = Some c ->
      (request_userId ctx = Some (cart_user c) ->
       exists w',
         removeFromCart id ctx w = (Ok c, w') /\
         find (where_cart_id id) (db_cartItems (db w')) = None /\
         (forall v, cart_id v <> id ->
                    (In v (db_cartItems (db w'))
                     <-> In v (db_cartItems (db w))))) /\
      (request_userId ctx <> Some (cart_user c) ->
       removeFromCart id ctx w = (Err "This item is not Yours!", w))).
Proof.
  split.
  - intros Hnone. unfold removeFromCart, db_query_cartItem. run.
    rewrite Hnone. reflexivity.
  - intros c Hc. split.
    + intros Hown. unfold removeFromCart, db_query_cartItem,
        db_mutation_deleteCartItem. run. rewrite Hc. run. rewrite Hown.
      rewrite N.eqb_refl. cbn. rewrite Hc. cbn.
      eexists. split; [reflexivity|]. cbn. split.
      * apply find_none_all. intros x Hx. apply filter_In in Hx.
        destruct Hx as [_ Hx]. now apply negb_true_iff in Hx.
      * intros v Hne. rewrite filter_In. split; [intros [H _]; exact H|].
        intros Hin. split; [exact Hin|]. apply negb_true_iff.
        unfold where_cart_id. now apply N.eqb_neq.
    + intros Hnot. unfold removeFromCart, db_query_cartItem. run.
      rewrite Hc. run.
      destruct (request_userId ctx) as [userId|]; [|reflexivity].
      destruct (N.eqb_spec (cart_user c) userId) as [Heq|Hne];
        [|reflexivity].
      exfalso. apply Hnot. now rewrite Heq.
Qed.

Lemma filter_keep_all {A} (p : A -> bool) (l : list A) :
  (forall x, In x l -> p x = true) -> filter p l = l.
Proof.
  induction l as [|x l IH]; cbn; intros H; [reflexivity|].
  rewrite (H x (or_introl eq_refl)). f_equal. apply IH.
  intros y Hy. apply H. now right.
Qed.

(** X13: adding an item that is not yet in the caller's cart and then
    removing the cart item [addToCart] returned gives back the world the
    two calls started from. *)
Theorem addToCart_then_removeFromCart id ctx w userId :
  request_userId ctx = Some userId ->
  existsb (where_user_id userId) (db_users (db w)) = true ->
  existsb (where_item_id id) (db_items (db w)) = true ->
  filter (where_cart_user_item userId id) (db_cartItems (db w)) = [] ->
  exists c w1,
    addToCart id ctx w = (Ok c, w1) /\
    In c (db_cartItems (db w1)) /\
    removeFromCart (cart_id c) ctx w1 = (Ok c, w).
Proof.
  intros Hid Hu Hi Hnone.
  set (cs := db_cartItems (db w)) in *.
  set (c := mkCartItem (fresh (map cart_id cs)) CartItem_quantity_default
                       id userId).
  assert (Hunused : forall x, In x cs ->
             where_cart_id (fresh (map cart_id cs)) x = false)
    by (intros x Hx; now apply fresh_cart_id_unused).
  exists c, (mkWorld (set_cartItems (db w) (cs ++ [c])) (cookies w)).
  split; [|split].
  - unfold addToCart, db_query_cartItems, db_mutation_createCartItem.
    rewrite Hid. run. fold cs. rewrite Hnone. run. rewrite Hu, Hi.
    reflexivity.
  - cbn. apply in_or_app. right. now left.
  - assert (Hself : where_cart_id (fresh (map cart_id cs)) c = true)
      by (unfold where_cart_id; apply N.eqb_refl).
    assert (Hfind : find (where_cart_id (fresh (map cart_id cs))) (cs ++ [c])
                    = Some c).
    { rewrite find_app, (find_none_all _ _ Hunused). cbn [find].
      now rewrite Hself. }
    assert (Hleft : filter (fun v => negb (where_cart_id
                                             (fresh (map cart_id cs)) v))
                           (cs ++ [c]) = cs).
    { rewrite filter_app. cbn [filter]. rewrite Hself. cbn.
      rewrite app_nil_r. apply filter_keep_all.
      intros x Hx. now rewrite (Hunused x Hx). }
    unfold removeFromCart, db_query_cartItem, db_mutation_deleteCartItem.
    rewrite Hid. run. rewrite Hfind. cbn. rewrite N.eqb_refl. cbn.
    rewrite Hfind, Hleft. cbn. subst cs.
    destruct w as [d k]. destruct d. reflexivity.
Qed.

(** The cart items after an [addToCart]: unchanged, or one row more for a
    pair that had none, or the quantity of the rows of one id replaced by
    the quantity of an existing row of the pair plus one. *)
Lemma addToCart_cartItems id ctx w :
  let cs := db_cartItems (db w) in
  let cs' := db_cartItems (db (snd (addToCart id ctx w))) in
  cs' = cs
  \/ (exists userId,
        request_userId ctx = Some userId /\
        filter (where_cart_user_item userId id) cs = [] /\
        cs' = cs ++ [mkCartItem (fresh (map cart_id cs))
                                CartItem_quantity_default id userId])
  \/ (exists c0,
        In c0 cs /\
        cs' = map (fun v => if where_cart_id (cart_id c0) v
                            then set_quantity (cart_quantity c0 + 1)%Z v
                            else v) cs).
Proof.
  cbv zeta. unfold addToCart, db_query_cartItems, db_mutation_createCartItem,
    db_mutation_updateCartItem.
  destruct (request_userId ctx) as [userId|] eqn:Hid; run; [|now left].
  destruct (filter (where_cart_user_item userId id) (db_cartItems (db w)))
    as [|c0 rest] eqn:Ef; run.
  - destruct (existsb (where_user_id userId) (db_users (db w))
              && existsb (where_item_id id) (db_items (db w))); run;
      [|now left].
    right. left. exists userId. repeat split. exact Ef.
  - assert (Hin : In c0 (db_cartItems (db w))).
    { assert (H : In c0 (c0 :: rest)) by now left.
      rewrite <- Ef in H. now apply filter_In in H. }
    destruct (find (where_cart_id (cart_id c0)) (db_cartItems (db w))); run;
      [|now left].
    right. right. exists c0. now split.
Qed.

(** X14: [addToCart] keeps the cart well formed: if no two cart items of
    the store stand for the same (user, item) pair, none do afterwards, and
    if every quantity is at least 1, every quantity still is. *)
Theorem addToCart_keeps_cart_invariant id ctx w :
  NoDup (map cart_pair (db_cartItems (db w))) ->
  Forall (fun c => (1 <= cart_quantity c)%Z) (db_cartItems (db w)) ->
  NoDup (map cart_pair (db_cartItems (db (snd (addToCart id ctx w))))) /\
  Forall (fun c => (1 <= cart_quantity c)%Z)
         (db_cartItems (db (snd (addToCart id ctx w)))).
Proof.
  intros Hnd Hq.
  destruct (addToCart_cartItems id ctx w)
    as [E | [(userId & _ & Hnone & E) | (c0 & Hin & E)]]; rewrite E; clear E.
  - now split.
  - split.
    + rewrite map_app. apply NoDup_app; [exact Hnd | |].
      * cbn. constructor; [easy | constructor].
      * intros p Hp [Hq'|[]]. subst p. apply in_map_iff in Hp.
        destruct Hp as [c [Hc Hin]].
        assert (Hf : In c (filter (where_cart_user_item userId id)
                                  (db_cartItems (db w)))).
        { apply filter_In. split; [exact Hin|].
          unfold cart_pair in Hc. inversion Hc as [[H1 H2]].
          unfold where_cart_user_item. cbn. now rewrite !N.eqb_refl. }
        rewrite Hnone in Hf. contradiction.
    + apply Forall_app. split; [exact Hq|].
      constructor; [|constructor]. cbn. unfold CartItem_quantity_default. lia.
  - split.
    + rewrite map_map.
      erewrite map_ext; [exact Hnd|].
      intros v. destruct (where_cart_id (cart_id c0) v); reflexivity.
    + rewrite Forall_forall in *. intros v Hv. apply in_map_iff in Hv.
      destruct Hv as [v0 [Hv0 Hin0]].
      destruct (where_cart_id (cart_id c0) v0).
      * subst v. cbn. specialize (Hq c0 Hin). lia.
      * subst v. now apply Hq.
Qed.


(** *** Checkout, continued *)

(** X16: [createOrder] does not look at whether the cart is empty: with an
    empty cart it asks the gateway to charge 0 and, when the gateway
    accepts, stores an order without items whose total is the charged
    amount; no cart item is touched. *)
Theorem createOrder_empty_cart token ctx w userId user charge :
  request_userId ctx = Some userId ->
  find (where_user_id userId) (db_users (db w)) = Some user ->
  cart_of (db w) userId = [] ->
  stripe_charges_create 0 "USD" token = Ok charge ->
  exists o w',
    createOrder token ctx w = (Ok o, w') /\
    order_items o = [] /\
    order_total o = charge_amount charge /\
    order_charge o = charge_id charge /\
    order_user o = userId /\
    db_cartItems (db w') = db_cartItems (db w) /\
    db_orders (db w') = db_orders (db w) ++ [o].
Proof.
  intros Hid Hu Hcart Hc.
  unfold createOrder, db_query_user_cart, db_mutation_createOrder,
    db_mutation_deleteManyCartItems.
  rewrite Hid. unfold bind, ret, throw, lift, deref, get_db, put_db.
  rewrite Hu, Hcart. cbn. rewrite Hc. cbn.
  rewrite (find_existsb _ _ _ Hu). cbn.
  eexists. eexists. split; [reflexivity|]. cbn.
  repeat split. apply filter_keep_all. reflexivity.
Qed.

(** X17: after a successful [createOrder], [orders] lists the new order for
    the buyer, while [order] on its id gives it to the buyer only if the
    buyer's cached permissions include [ADMIN]; a buyer who is no admin
    cannot read the order back with [order]. *)
Theorem createOrder_then_queries token ctx w o w' user :
  createOrder token ctx w = (Ok o, w') ->
  request_user ctx = Some user ->
  (exists os, orders ctx w' = (Ok os, w') /\ In o os) /\
  order (order_id o) ctx w'
  = if includes (user_permissions user) "ADMIN"
    then (Ok o, w')
    else (Err "You cant see this! :)", w').
Proof.
  intros H Hu.
  destruct (createOrder_inv _ _ _ _ _ H)
    as (userId & usr & amount & charge & ois & Hid & _ & _ & _ & _ & Ho & Hw).
  assert (Hown : order_user o = userId) by (rewrite Ho; reflexivity).
  assert (Horders : db_orders (db w') = db_orders (db w) ++ [o])
    by (rewrite Hw; reflexivity).
  assert (Hfind : find (where_order_id (order_id o)) (db_orders (db w'))
                  = Some o).
  { rewrite Horders, find_app.
    rewrite find_none_all.
    - cbn. unfold where_order_id. now rewrite N.eqb_refl.
    - intros x Hx. unfold where_order_id. apply N.eqb_neq.
      pose proof (fresh_above (map order_id (db_orders (db w))) (order_id x)
                    (in_map _ _ _ Hx)) as Hlt.
      rewrite Ho. cbn. lia. }
  split.
  - unfold orders, db_query_orders. rewrite Hid. run.
    eexists. split; [reflexivity|]. apply filter_In. split.
    + rewrite Horders. apply in_or_app. right. now left.
    + rewrite Hown. apply N.eqb_refl.
  - unfold order, db_query_order. rewrite Hid, Hu. run. rewrite Hfind. run.
    rewrite Hown, N.eqb_refl. cbn.
    destruct (includes (user_permissions user) "ADMIN"); reflexivity.
Qed.

(** *** Sessions *)

(** X18: [signin] never writes to the store.  When it succeeds, the user
    it returns is a stored user with the email given whose stored hash
    verifies against the password given, and the response carries that
    user's session cookie; when it throws, no cookie is set. *)
Theorem signin_outcomes email password w :
  db (snd (signin email password w)) = db w /\
  (forall u w', signin email password w = (Ok u, w') ->
     In u (db_users (db w)) /\
     user_email u = email /\
     bcrypt_compare password (user_password u) = true /\
     In (session_cookie u) (cookies w')) /\
  (forall msg w', signin email password w = (Err msg, w') -> w' = w).
Proof.
  unfold signin, db_query_user, response_cookie. run.
  destruct (find (where_user_email email) (db_users (db w))) as [u0|] eqn:Eu;
    run.
  - destruct (bcrypt_compare password (user_password u0)) eqn:Ec; run.
    + split; [reflexivity|]. split.
      * intros u w' H. inversion H; subst; clear H.
        apply find_some in Eu. destruct Eu as [Hin He].
        repeat split; try assumption.
        -- now apply String.eqb_eq in He.
        -- now left.
      * intros msg w' H. discriminate.
    + split; [reflexivity|]. split; [discriminate|].
      intros msg w' H. now inversion H.
  - split; [reflexivity|]. split; [discriminate|].
    intros msg w' H. now inversion H.
Qed.


(** X20: [signup] lowercases the email and [signin] looks the email up as
    given.  After a successful signup with an email that is not its own
    lowercase form, in a store where nobody is registered under the email as
    typed, the user is stored under the lowercased email and signing in with
    the email as it was typed finds no user and writes nothing. *)
Theorem signup_then_signin_as_typed env args w u w1 :
  existsb (where_user_email (su_email args)) (db_users (db w)) = false ->
  toLowerCase (su_email args) <> su_email args ->
  signup env args w = (Ok u, w1) ->
  user_email u = toLowerCase (su_email args) /\
  In u (db_users (db w1)) /\
  signin (su_email args) (su_password args) w1
  = (Err ("No such user found for email " ++ su_email args), w1).
Proof.
  intros Hfree Hupper Hup.
  assert (Hshape : db_users (db w1) = db_users (db w) ++ [u]
                   /\ user_email u = toLowerCase (su_email args)).
  { revert Hup. clear Hfree Hupper.
    unfold signup, db_mutation_createUser, response_cookie. run.
    destruct (existsb (where_user_email (toLowerCase (su_email args)))
                      (db_users (db w))); run; [discriminate|].
    intros H. inversion H; subst. now split. }
  destruct Hshape as [Hus He].
  split; [exact He|].
  split; [rewrite Hus; apply in_or_app; right; now left|].
  unfold signin, db_query_user. run.
  rewrite find_none_all; [reflexivity|].
  intros v Hv. rewrite Hus in Hv. apply in_app_or in Hv.
  destruct Hv as [Hv|[Hv|[]]].
  - destruct (where_user_email (su_email args) v) eqn:E; [|reflexivity].
    assert (existsb (where_user_email (su_email args)) (db_users (db w))
            = true) by (apply existsb_exists; now exists v).
    congruence.
  - subst v. unfold where_user_email. apply String.eqb_neq.
    now rewrite He.
Qed.

(** X21: [signout] always succeeds and signs nobody in: afterwards the
    response has no cookie named [token], the other cookies are as they
    were, and the store is untouched. *)
Theorem signout_ends_session w :
  exists w',
    signout w = (Ok "Goodbye!", w') /\
    db w' = db w /\
    (forall c, In c (cookies w')
               <-> In c (cookies w) /\ cookie_name c <> "token").
Proof.
  unfold signout, response_clearCookie. run.
  eexists. split; [reflexivity|]. cbn. split; [reflexivity|].
  intros c. rewrite filter_In, negb_true_iff, String.eqb_neq. reflexivity.
Qed.

(** *** Items and checkout, composed *)


(** The caller's cart is empty after a successful [createOrder]. *)
Lemma createOrder_cart_gone token ctx w o w' userId :
  request_userId ctx = Some userId ->
  createOrder token ctx w = (Ok o, w') ->
  cart_of (db w') userId = [] /\ db_users (db w') = db_users (db w).
Proof.
  intros Hid H.
  destruct (createOrder_inv _ _ _ _ _ H)
    as (u & user & amount & charge & ois & Hid' & _ & _ & _ & _ & _ & Hw).
  rewrite Hid in Hid'. inversion Hid'; subst u; clear Hid'.
  split; [|rewrite Hw; reflexivity].
  unfold cart_of. rewrite Hw. cbn [db db_cartItems db_items].
  rewrite cart_of_ids.
  rewrite (filter_none_all (fun c => N.eqb (cart_user c) userId));
    [reflexivity|].
  intros c Hc. apply filter_In in Hc. destruct Hc as [Hc Hkept].
  destruct (N.eqb (cart_user c) userId) eqn:Eown; [|reflexivity].
  apply negb_true_iff in Hkept.
  assert (existsb (N.eqb (cart_id c))
            (map cart_id
               (filter (fun c0 => N.eqb (cart_user c0) userId)
                       (db_cartItems (db w)))) = true); [|congruence].
  apply existsb_exists. exists (cart_id c). split; [|apply N.eqb_refl].
  apply in_map. apply filter_In. now split.
Qed.

(** X23: nothing stops a second checkout: when [createOrder] is called
    again right after a successful one, it asks the gateway to charge 0 and,
    if the gateway accepts, stores a second order without items beside the
    first. *)
Theorem createOrder_twice token ctx w o w' token2 charge2 :
  createOrder token ctx w = (Ok o, w') ->
  stripe_charges_create 0 "USD" token2 = Ok charge2 ->
  exists o2 w2,
    createOrder token2 ctx w' = (Ok o2, w2) /\
    order_items o2 = [] /\
    order_total o2 = charge_amount charge2 /\
    order_id o2 <> order_id o /\
    db_orders (db w2) = db_orders (db w) ++ [o; o2].
Proof.
  intros H Hc.
  destruct (createOrder_inv _ _ _ _ _ H)
    as (userId & user & amount & charge & ois & Hid & Hu & _ & _ & _ & Ho & Hw).
  destruct (createOrder_cart_gone _ _ _ _ _ _ Hid H) as [Hcart Hus].
  assert (Horders : db_orders (db w') = db_orders (db w) ++ [o])
    by (rewrite Hw; reflexivity).
  rewrite <- Hus in Hu.
  unfold createOrder, db_query_user_cart, db_mutation_createOrder,
    db_mutation_deleteManyCartItems.
  rewrite Hid. unfold bind, ret, throw, lift, deref, get_db, put_db.
  rewrite Hu, Hcart. cbn. rewrite Hc. cbn.
  rewrite (find_existsb _ _ _ Hu). cbn.
  eexists. eexists. split; [reflexivity|]. cbn.
  split; [reflexivity|]. split; [reflexivity|]. split.
  - rewrite Horders.
    pose proof (fresh_above (map order_id (db_orders (db w) ++ [o]))
                  (order_id o)) as Hlt.
    assert (Hin : In (order_id o) (map order_id (db_orders (db w) ++ [o]))).
    { apply in_map. apply in_or_app. right. now left. }
    specialize (Hlt Hin). lia.
  - rewrite Horders, <- app_assoc. reflexivity.
Qed.

End Resolvers.

(** ** The properties at work on the sample store *)


Lemma toy_hash_verifies : verifies toy_hash toy_compare.
Proof.
  intros plain rounds salt. unfold toy_compare, toy_hash.
  apply String.eqb_refl.
Defined.



Lemma createOrder_gateway_failure_witness :
  createOrder declining_gateway "tok_chargeDeclined" as_bob shop_world
    = (Err "Your card was declined.", shop_world) /\
  db_orders (db (snd (createOrder declining_gateway "tok_chargeDeclined"
                                  as_bob shop_world)))
    = db_orders (db shop_world) /\
  db_cartItems (db (snd (createOrder declining_gateway "tok_chargeDeclined"
                                     as_bob shop_world)))
    = db_cartItems (db shop_world).
Proof.
  apply (createOrder_gateway_failure declining_gateway "tok_chargeDeclined"
           as_bob shop_world 2%N bob 1300%Z "Your card was declined.");
    reflexivity.
Defined.

Lemma createOrder_empties_cart_witness :
  cart_of (db after_checkout) 2 = [] /\
  db_cartItems (db after_checkout)
    = filter (fun c => negb (N.eqb (cart_user c) 2))
             (db_cartItems (db shop_world)) /\
  Forall2 (snapshot 2) (cart_of (db shop_world) 2) (order_items bobs_order) /\
  map oi_quantity (order_items bobs_order)
    = map line_quantity (cart_of (db shop_world) 2) /\
  In bobs_order (db_orders (db after_checkout)).
Proof.
  destruct (createOrder_empties_cart capturing_gateway "tok_visa" as_bob
              shop_world 2%N bobs_order after_checkout eq_refl eq_refl)
    as (Hempty & Hexact & Hsnap & Hqty & Hin).
  split; [exact Hempty|]. split; [|split; [exact Hsnap|split; assumption]].
  apply Hexact. cbn.
  repeat (constructor; [cbn; intuition discriminate|]). constructor.
Defined.

(** Alice adds the shoes twice: one row, of quantity 1 and then 2. *)
Lemma addToCart_twice_witness :
  exists w1 w2,
    addToCart 1 as_alice shop_world = (Ok (mkCartItem 4 1 1 1), w1) /\
    filter (where_cart_user_item 1 1) (db_cartItems (db w1))
      = [mkCartItem 4 1 1 1] /\
    addToCart 1 as_alice w1 = (Ok (mkCartItem 4 2 1 1), w2) /\
    filter (where_cart_user_item 1 1) (db_cartItems (db w2))
      = [mkCartItem 4 2 1 1] /\
    db_cartItems (db w2)
      = [mkCartItem 1 2 1 2; mkCartItem 2 1 2 2; mkCartItem 3 4 2 1;
         mkCartItem 4 2 1 1].
Proof.
  destruct (addToCart_twice 1%N as_alice shop_world 1%N
              eq_refl eq_refl eq_refl eq_refl)
    as (c & w1 & c2 & w2 & H1 & _ & _ & _ & Hf1 & H2 & Hc2 & _ & Hf2 & _).
  change (addToCart 1 as_alice shop_world)
    with (Ok (mkCartItem 4 1 1 1),
          mkWorld (set_cartItems shop
                     (db_cartItems shop ++ [mkCartItem 4 1 1 1])) []) in H1.
  inversion H1; subst c w1. cbn in Hc2. subst c2.
  exists (mkWorld (set_cartItems shop
                     (db_cartItems shop ++ [mkCartItem 4 1 1 1])) []).
  exists w2. split; [reflexivity|]. split; [exact Hf1|].
  split; [exact H2|]. split; [exact Hf2|].
  vm_compute in H2. inversion H2. reflexivity.
Defined.

Lemma resetPassword_single_use_witness :
  let args := mkResetPasswordArgs "5f2c9e0b7a" "hunter2" "hunter2" in
  resetPassword toy_hash toy_sign "s3cret" in_time args shop_world
    = (Ok alice_reset, after_reset) /\
  user_resetToken alice_reset = None /\
  user_resetTokenExpiry alice_reset = None /\
  filter (holds_token "5f2c9e0b7a") (db_users (db after_reset)) = [] /\
  filter (where_resetToken "5f2c9e0b7a" (Date_now in_time - 3600000)%Z)
         (db_users (db after_reset)) = [] /\
  exists msg,
    resetPassword toy_hash toy_sign "s3cret" in_time args after_reset
      = (Err msg, after_reset).
Proof.
  cbv zeta. split; [reflexivity|].
  apply (resetPassword_single_use toy_hash toy_sign "s3cret" in_time
           (mkResetPasswordArgs "5f2c9e0b7a" "hunter2" "hunter2")
           shop_world alice_reset after_reset in_time
           (mkResetPasswordArgs "5f2c9e0b7a" "hunter2" "hunter2")).
  - reflexivity.
  - cbn. lia.
  - reflexivity.
Defined.

Lemma signup_signin_roundtrip_witness :
  exists u w1 w2,
    signup toy_hash toy_sign "s3cret" toy_lower in_time
           (mkSignupArgs "Email@Test.com" "Dave" "correct horse") shop_world
      = (Ok u, w1) /\
    user_email u = "email@test.com" /\
    In u (db_users (db w1)) /\
    toy_compare "correct horse" (user_password u) = true /\
    signin toy_compare toy_sign "s3cret" "email@test.com" "correct horse" w1
      = (Ok u, w2).
Proof.
  apply (signup_signin_roundtrip toy_hash toy_compare toy_sign "s3cret"
           toy_lower in_time "Dave" "correct horse" shop_world
           toy_hash_verifies).
  reflexivity.
Defined.

(** Carol owns order 1 and is an admin: she gets it.  Alice does not own it
    and is no admin: she does not. *)
Lemma order_needs_owner_and_admin_witness :
  order 1 as_carol archive = (Ok carols_order, archive) /\
  order 1 as_alice archive = (Err "You cant see this! :)", archive).
Proof.
  split.
  - apply (order_needs_owner_and_admin 1%N as_carol archive 3%N carol
             carols_order eq_refl eq_refl eq_refl).
    split; [reflexivity | now left].
  - apply (order_needs_owner_and_admin 1%N as_alice archive 1%N alice
             carols_order eq_refl eq_refl eq_refl).
    intros [Hown _]. discriminate Hown.
Defined.

(** ** The further properties at work on the sample store *)

Ltac distinct :=
  repeat (constructor;
          [cbn; let H := fresh in
                intros H;
                repeat (destruct H as [H|H]; [inversion H|]); exact H|]);
  constructor.

Lemma createItem_owned_by_caller_witness :
  createItem scarf_args as_alice shop_world = (Ok scarf, after_listing) /\
  item_user scarf = Some 1%N /\
  ~ In (item_id scarf) (map item_id (db_items (db shop_world))).
Proof.
  destruct (createItem_owned_by_caller scarf_args as_alice shop_world scarf
              after_listing eq_refl)
    as (userId & Hid & Hown & _ & _ & _ & _ & _ & Hfresh & _).
  inversion Hid; subst userId. now repeat split.
Defined.

Lemma anonymous_cannot_mutate_witness :
  addToCart 1 anonymous shop_world = (Err "You must be logged in!", shop_world)
  /\ createOrder capturing_gateway "tok_visa" anonymous shop_world
     = (Err "You must be signed in!", shop_world)
  /\ exists msg, deleteItem 1 anonymous shop_world = (Err msg, shop_world).
Proof.
  destruct (anonymous_cannot_mutate capturing_gateway anonymous shop_world
              eq_refl eq_refl)
    as (_ & Hdel & _ & Hadd & _ & Horder).
  split; [apply Hadd|]. split; [apply Horder | apply Hdel].
Defined.

(** Carol, an admin, deletes Alice's shoes; Bob may not delete Carol's
    hat. *)
Lemma deleteItem_guard_witness :
  (exists w',
      deleteItem 1 as_carol shop_world = (Ok shoes, w') /\
      find (where_item_id 1) (db_items (db w')) = None) /\
  deleteItem 2 as_bob shop_world
  = (Err "You don't have permission to do that!", shop_world).
Proof.
  split.
  - destruct (deleteItem_guard 1%N as_carol shop_world shoes 1%N carol
                eq_refl eq_refl eq_refl) as [Hyes _].
    destruct Hyes as (w' & Hrun & Hgone & _).
    + right. left. now left.
    + exists w'. now split.
  - apply (deleteItem_guard 2%N as_bob shop_world hat 3%N bob
             eq_refl eq_refl eq_refl).
    unfold may_delete. cbn. intros [H|[H|H]]; [discriminate H| |];
      repeat (destruct H as [H|H]; [discriminate H|]); exact H.
Defined.

Lemma orders_lists_own_orders_witness :
  exists os,
    orders as_carol archive = (Ok os, archive) /\
    (forall o, In o os <-> In o (db_orders (db archive)) /\ order_user o = 3%N).
Proof.
  apply (orders_lists_own_orders as_carol archive 3%N). reflexivity.
Defined.

(** The transport is down: [requestReset] throws, and Bob's token is
    stored all the same. *)
Lemma requestReset_stores_token_witness :
  let w' := snd (requestReset "https://shop" failing_transport toy_email
                              in_time "bob@example.com" shop_world) in
  fst (requestReset "https://shop" failing_transport toy_email in_time
                    "bob@example.com" shop_world)
  = Err "connect ECONNREFUSED" /\
  find (where_user_email "bob@example.com") (db_users (db w'))
  = Some (set_resetToken "9d41aa03c2" 1700002600000 bob).
Proof.
  destruct (requestReset_stores_token "https://shop" failing_transport
              toy_email in_time "bob@example.com" shop_world) as [_ H].
  destruct (H bob eq_refl) as (_ & _ & Hfind & Hres).
  split; [exact Hres | exact Hfind].
Defined.

Lemma requestReset_then_resetPassword_witness :
  let w1 := snd (requestReset "https://shop" failing_transport toy_email
                              in_time "bob@example.com" shop_world) in
  let args := mkResetPasswordArgs "9d41aa03c2" "hunter2" "hunter2" in
  (exists w2,
      resetPassword toy_hash toy_sign "s3cret"
                    (mkEnv (1699999000000 + 7200000) "salt" "00") args w1
      = (Ok (set_password_clear_token "$2a$hunter2" bob), w2)) /\
  resetPassword toy_hash toy_sign "s3cret"
                (mkEnv (1699999000000 + 7200001) "salt" "00") args w1
  = (Err "This token is wither invalid or expired!", w1).
Proof.
  cbv zeta. split.
  - destruct (requestReset_then_resetPassword toy_hash toy_sign "s3cret"
                "https://shop" failing_transport toy_email in_time
                "bob@example.com" shop_world bob
                (mkEnv (1699999000000 + 7200000) "salt" "00") "hunter2"
                eq_refl eq_refl) as [Hin _].
    destruct Hin as (w2 & Hrun & _); [cbn; lia|].
    exists w2. exact Hrun.
  - apply (requestReset_then_resetPassword toy_hash toy_sign "s3cret"
             "https://shop" failing_transport toy_email in_time
             "bob@example.com" shop_world bob
             (mkEnv (1699999000000 + 7200001) "salt" "00") "hunter2"
             eq_refl eq_refl).
    cbn. lia.
Defined.

Lemma resetPassword_failure_atomic_witness :
  resetPassword toy_hash toy_sign "s3cret" in_time
                (mkResetPasswordArgs "0000000000" "hunter2" "hunter2")
                shop_world
  = (Err "This token is wither invalid or expired!", shop_world) /\
  shop_world = shop_world.
Proof.
  split; [reflexivity|].
  apply (resetPassword_failure_atomic toy_hash toy_sign "s3cret" in_time
           (mkResetPasswordArgs "0000000000" "hunter2" "hunter2")
           shop_world "This token is wither invalid or expired!" shop_world).
  reflexivity.
Defined.



Lemma updatePermissions_rejects_witness :
  updatePermissions (mkUpdatePermissionsArgs ["ADMIN"] 1) as_alice shop_world
  = (Err "You do not have sufficient permissions", shop_world).
Proof.
  apply (updatePermissions_rejects (mkUpdatePermissionsArgs ["ADMIN"] 1)
           as_alice shop_world 1%N alice eq_refl eq_refl).
  - cbn. intros [H|[]]. discriminate H.
  - cbn. intros [H|[]]. discriminate H.
Defined.

Lemma addToCart_then_removeFromCart_witness :
  exists c w1,
    addToCart 1 as_alice shop_world = (Ok c, w1) /\
    In c (db_cartItems (db w1)) /\
    removeFromCart (cart_id c) as_alice w1 = (Ok c, shop_world).
Proof.
  apply (addToCart_then_removeFromCart 1%N as_alice shop_world 1%N);
    reflexivity.
Defined.

Lemma addToCart_keeps_cart_invariant_witness :
  NoDup (map cart_pair (db_cartItems (db (snd (addToCart 1 as_bob shop_world)))))
  /\ Forall (fun c => (1 <= cart_quantity c)%Z)
            (db_cartItems (db (snd (addToCart 1 as_bob shop_world)))).
Proof.
  apply (addToCart_keeps_cart_invariant 1%N as_bob shop_world).
  - cbn. distinct.
  - cbn. repeat (constructor; [cbn; lia|]). constructor.
Defined.


Lemma createOrder_empty_cart_witness :
  exists o w',
    createOrder capturing_gateway "tok_visa" as_carol shop_world = (Ok o, w') /\
    order_items o = [] /\
    order_total o = 0%Z.
Proof.
  destruct (createOrder_empty_cart capturing_gateway "tok_visa" as_carol
              shop_world 3%N carol (mkCharge "ch_1" 0)
              eq_refl eq_refl eq_refl eq_refl)
    as (o & w' & Hrun & Hitems & Htotal & _).
  exists o, w'. now repeat split.
Defined.

(** Bob, who is no admin, cannot read back the order he has just paid. *)
Lemma createOrder_then_queries_witness :
  (exists os, orders as_bob after_checkout = (Ok os, after_checkout)
              /\ In bobs_order os) /\
  order 1 as_bob after_checkout = (Err "You cant see this! :)", after_checkout).
Proof.
  apply (createOrder_then_queries capturing_gateway "tok_visa" as_bob
           shop_world bobs_order after_checkout bob eq_refl eq_refl).
Defined.

Lemma signup_then_signin_as_typed_witness :
  signup toy_hash toy_sign "s3cret" toy_lower in_time dave_args shop_world
  = (Ok dave, after_signup) /\
  signin toy_compare toy_sign "s3cret" "Email@Test.com" "correct horse"
         after_signup
  = (Err "No such user found for email Email@Test.com", after_signup).
Proof.
  split; [reflexivity|].
  apply (signup_then_signin_as_typed toy_hash toy_compare toy_sign "s3cret"
           toy_lower in_time dave_args shop_world dave after_signup eq_refl).
  - cbn. discriminate.
  - reflexivity.
Defined.

(** Bob pays, then submits the checkout once more. *)
Lemma createOrder_twice_witness :
  exists o2 w2,
    createOrder capturing_gateway "tok_visa" as_bob after_checkout
    = (Ok o2, w2) /\
    order_items o2 = [] /\
    order_total o2 = 0%Z /\
    db_orders (db w2) = [bobs_order; o2].
Proof.
  destruct (createOrder_twice capturing_gateway "tok_visa" as_bob shop_world
              bobs_order after_checkout "tok_visa" (mkCharge "ch_1" 0)
              eq_refl eq_refl)
    as (o2 & w2 & Hrun & Hitems & Htotal & _ & Horders).
  exists o2, w2. now repeat split.
Defined.


Lemma queries_read_only_witness :
  me anonymous shop_world = (Ok None, shop_world) /\
  users anonymous shop_world = (Err "You must be logged in!", shop_world) /\
  snd (users as_carol shop_world) = shop_world.
Proof.
  destruct (queries_read_only anonymous shop_world) as [_ Hanon].
  destruct (Hanon eq_refl) as (Hme & Husers & _).
  destruct (queries_read_only as_carol shop_world) as [(_ & Hro & _) _].
  now repeat split.
Defined.

(** Bob removes his own cart item; Alice cannot remove it for him. *)
Lemma removeFromCart_owner_only_witness :
  (exists w',
      removeFromCart 1 as_bob shop_world = (Ok (mkCartItem 1 2 1 2), w') /\
      find (where_cart_id 1) (db_cartItems (db w')) = None) /\
  removeFromCart 1 as_alice shop_world
  = (Err "This item is not Yours!", shop_world).
Proof.
  destruct (removeFromCart_owner_only 1%N as_bob shop_world) as [_ Hbob].
  destruct (Hbob (mkCartItem 1 2 1 2) eq_refl) as [Hyes _].
  destruct (Hyes eq_refl) as (w' & Hrun & Hgone & _).
  destruct (removeFromCart_owner_only 1%N as_alice shop_world) as [_ Halice].
  destruct (Halice (mkCartItem 1 2 1 2) eq_refl) as [_ Hno].
  split; [exists w'; now split|].
  apply Hno. cbn. discriminate.
Defined.

Lemma signin_outcomes_witness :
  In dave (db_users (db after_signup)) /\
  user_email dave = "email@test.com" /\
  toy_compare "correct horse" (user_password dave) = true.
Proof.
  destruct (signin_outcomes toy_compare toy_sign "s3cret" "email@test.com"
              "correct horse" after_signup) as (_ & Hok & _).
  destruct (Hok dave after_signup eq_refl) as (Hin & He & Hc & _).
  now repeat split.
Defined.


